(** * node-vault: the request pipeline of [src/dist/index.js]

    A shallow embedding of the client built by [module.exports]: the
    response normalizer [handleVaultResponse], the request executor
    [client.request], the generic verbs, [validate], [extendOptions] and the
    functions produced by [generateFunction].

    Modelling conventions.
    - A JavaScript value is a [value]: [undefined], [null], booleans,
      numbers, strings, arrays and plain objects.  A number is given by an
      integer and is the Number nearest to it (the integer itself up to
      2^53); fractions, [NaN] and the negative zero are not represented.
    - A string is a [string] of bytes, the UTF-8 text of the JavaScript
      string; a surrogate on its own is the three bytes that UTF-8 leaves
      unused for it.
    - An object is the association list of its own enumerable properties, in
      the order [Object.keys] reports them; they are data, never functions.
      What it inherits from [Object.prototype] is the same for every object
      and is given once ([object_prototype]).
    - Objects are compared as values.  Where the code writes into an object
      that is held in two places, the places are named ([request_with]);
      the values that a caller passes are taken to share no object among
      themselves.
    - The injected dependencies ([config.tv4], [config.mustache],
      [config['request-promise']]) are the fields of a [Config] record.
    - A call returns a settled promise or throws; the validations and HTTP
      calls it performed are recorded in a trace of events. *)

From Stdlib Require Import String Ascii List ZArith Bool Lia DecimalString.
Import ListNotations.
Open Scope list_scope.
Open Scope string_scope.

(** ** JavaScript values *)

Module JS.

#[warnings="-register-all"]
Inductive value : Type :=
| VUndefined
| VNull
| VBool (b : bool)
| VNum (z : Z)
| VStr (s : string)
| VArr (items : list value)
| VObj (props : list (string * value)).

Definition obj := list (string * value).

(** What a call throws, or a promise rejects with: [tv4.error]; [new
    Error(message)], with its message; a [TypeError] or [URIError] of the
    language (the text describes it, engines word it in their own way);
    an exception of the templating engine; a failure of the
    transport. *)
Inductive JsError : Type :=
| ValidationError (tv4_error : value)
| Error (message : string)
| TypeError (what : string)
| URIError (what : string)
| RenderError
| TransportError (reason : value).

(** [o[k]] on the own properties; [None] when [k] is absent. *)
Fixpoint lookup (k : string) (o : obj) : option value :=
  match o with
  | [] => None
  | (k', v) :: rest => if String.eqb k' k then Some v else lookup k rest
  end.

(** [o.k]: an absent property reads as [undefined]. *)
Definition get (k : string) (o : obj) : value :=
  match lookup k o with
  | Some v => v
  | None => VUndefined
  end.

(** [o.k = v]: replaces the property in place, or adds it last. *)
Fixpoint set (k : string) (v : value) (o : obj) : obj :=
  match o with
  | [] => [(k, v)]
  | (k', v') :: rest =>
      if String.eqb k' k then (k, v) :: rest else (k', v') :: set k v rest
  end.

(** Whether [k] is an own property of [o]. *)
Definition has (k : string) (o : obj) : bool :=
  match lookup k o with
  | Some _ => true
  | None => false
  end.

Definition keys (o : obj) : list string := map fst o.

(** *** Numbers *)

Definition decimal (z : Z) : string := NilZero.string_of_int (Z.to_int z).

(** The Number nearest to the positive integer [m], ties to even; [None]
    when [m] is beyond the largest Number. *)
Definition nearest_number (m : Z) : option Z :=
  let bits := (Z.log2 m + 1)%Z in
  if (bits <=? 53)%Z then Some m
  else
    let e := (bits - 53)%Z in
    let q := (m / 2 ^ e)%Z in
    let r := (m mod 2 ^ e)%Z in
    let half := (2 ^ (e - 1))%Z in
    let q' := if (half <? r)%Z || ((r =? half)%Z && Z.odd q) then (q + 1)%Z else q in
    let d := (q' * 2 ^ e)%Z in
    if (2 ^ 1024 <=? d)%Z then None else Some d.

(** Whether the integer [c] converts to the Number [d], for [d] from
    2^53: [c] is within half a step of [d], the bounds included when the
    mantissa of [d] is even. *)
Definition reads_as (d c : Z) : bool :=
  let e := (Z.log2 d - 52)%Z in
  let mantissa := (d / 2 ^ e)%Z in
  let below := if (mantissa =? 2 ^ 52)%Z then (2 ^ e)%Z else (2 ^ (e + 1))%Z in
  let above := (2 ^ (e + 1))%Z in
  if Z.even mantissa
  then (4 * d - below <=? 4 * c)%Z && (4 * c <=? 4 * d + above)%Z
  else (4 * d - below <? 4 * c)%Z && (4 * c <? 4 * d + above)%Z.

(** The integer with the fewest significant digits that converts to [d];
    of two with as few, the nearer to [d]. *)
Fixpoint shortest (fuel : nat) (k digits d : Z) : Z :=
  match fuel with
  | O => d
  | S fuel' =>
      let scale := (10 ^ (digits - k))%Z in
      let lo := (d / scale * scale)%Z in
      let hi := (lo + scale)%Z in
      match reads_as d lo, reads_as d hi with
      | true, true =>
          if (d - lo <? hi - d)%Z then lo
          else if (hi - d <? d - lo)%Z then hi
          else if Z.even (d / scale) then lo else hi
      | true, false => lo
      | false, true => hi
      | false, false => shortest fuel' (k + 1)%Z digits d
      end
  end.

Fixpoint reversed (s acc : string) : string :=
  match s with
  | EmptyString => acc
  | String c rest => reversed rest (String c acc)
  end.

Fixpoint without_leading_zeros (s : string) : string :=
  match s with
  | String c rest => if Ascii.eqb c "0" then without_leading_zeros rest else s
  | EmptyString => s
  end.

(** The digits of [c], in full up to 21 of them, and in the form
    [d.ddde+n] beyond. *)
Definition print_digits (c : Z) : string :=
  let ds := decimal c in
  if (String.length ds <=? 21)%nat then ds
  else
    match reversed (without_leading_zeros (reversed ds "")) "" with
    | String first rest =>
        String first (match rest with EmptyString => "" | _ => "." ++ rest end)
        ++ "e+" ++ decimal (Z.of_nat (String.length ds) - 1)
    | EmptyString => ds
    end.

Definition positive_to_string (m : Z) : string :=
  match nearest_number m with
  | None => "Infinity"
  | Some d =>
      if (d <? 2 ^ 53)%Z then decimal d
      else
        print_digits
          (shortest (String.length (decimal d)) 1
             (Z.of_nat (String.length (decimal d))) d)
  end.

(** [String(n)] for the Number that the integer [z] denotes: the Number
    nearest to [z], printed with the fewest digits that denote it. *)
Definition Z_to_string (z : Z) : string :=
  match z with
  | Z0 => "0"
  | Zpos _ => positive_to_string z
  | Zneg _ => "-" ++ positive_to_string (- z)
  end.

(** Whether two integers denote the same Number. *)
Definition same_number (x y : Z) : bool :=
  (Z.sgn x =? Z.sgn y)%Z
  && match nearest_number (Z.abs x), nearest_number (Z.abs y) with
     | Some a, Some b => (a =? b)%Z
     | None, None => true
     | _, _ => false
     end.

(** *** Texts *)

Definition byte (c : ascii) : Z := Z.of_N (N_of_ascii c).
Definition of_byte (b : Z) : ascii := ascii_of_N (Z.to_N b).

Fixpoint chars (s : string) : list ascii :=
  match s with
  | EmptyString => []
  | String c rest => c :: chars rest
  end.

Fixpoint text (l : list ascii) : string :=
  match l with
  | [] => EmptyString
  | c :: rest => String c (text rest)
  end.

Definition text_of_bytes (l : list Z) : string := text (map of_byte l).

Definition surrogate (u : Z) : string :=
  text_of_bytes [224 + u / 4096; 128 + (u / 64) mod 64; 128 + u mod 64]%Z.

(** The UTF-16 code units of a text, each as a text of its own; a
    character beyond the basic plane gives its two surrogates (in the
    three-byte form that UTF-8 leaves unused). *)
Fixpoint code_units (s : string) : list string :=
  match s with
  | EmptyString => []
  | String c1 r1 =>
      if (byte c1 <? 192)%Z then String c1 "" :: code_units r1
      else if (byte c1 <? 224)%Z then
        match r1 with
        | String c2 r2 => String c1 (String c2 "") :: code_units r2
        | _ => [String c1 ""]
        end
      else if (byte c1 <? 240)%Z then
        match r1 with
        | String c2 (String c3 r3) =>
            String c1 (String c2 (String c3 "")) :: code_units r3
        | _ => [String c1 r1]
        end
      else
        match r1 with
        | String c2 (String c3 (String c4 r4)) =>
            let cp := ((byte c1 mod 8) * 262144 + (byte c2 mod 64) * 4096
                       + (byte c3 mod 64) * 64 + byte c4 mod 64)%Z in
            let v := (cp - 65536)%Z in
            surrogate (55296 + v / 1024) :: surrogate (56320 + v mod 1024)
              :: code_units r4
        | _ => [String c1 r1]
        end
  end.

(** A surrogate on its own: the byte 237 followed by a byte from 160. *)
Fixpoint has_lone_surrogate (s : string) : bool :=
  match s with
  | EmptyString => false
  | String c1 r1 =>
      match r1 with
      | String c2 _ =>
          ((byte c1 =? 237)%Z && (160 <=? byte c2)%Z) || has_lone_surrogate r1
      | EmptyString => false
      end
  end.

(** The white space and line terminators that [ToNumber] strips from a
    text, in UTF-8. *)
Definition white_space : list (list ascii) :=
  map (map of_byte)
    [[9]; [10]; [11]; [12]; [13]; [32]; [194; 160]; [225; 154; 128];
     [226; 128; 128]; [226; 128; 129]; [226; 128; 130]; [226; 128; 131];
     [226; 128; 132]; [226; 128; 133]; [226; 128; 134]; [226; 128; 135];
     [226; 128; 136]; [226; 128; 137]; [226; 128; 138]; [226; 128; 168];
     [226; 128; 169]; [226; 128; 175]; [226; 129; 159]; [227; 128; 128];
     [239; 187; 191]]%Z.

Fixpoint after_prefix (p l : list ascii) : option (list ascii) :=
  match p, l with
  | [], _ => Some l
  | a :: p', b :: l' => if Ascii.eqb a b then after_prefix p' l' else None
  | _ :: _, [] => None
  end.

Fixpoint after_any (ps : list (list ascii)) (l : list ascii) : option (list ascii) :=
  match ps with
  | [] => None
  | p :: rest =>
      match after_prefix p l with
      | Some l' => Some l'
      | None => after_any rest l
      end
  end.

Fixpoint strip (fuel : nat) (ps : list (list ascii)) (l : list ascii) : list ascii :=
  match fuel with
  | O => l
  | S fuel' =>
      match after_any ps l with
      | Some l' => strip fuel' ps l'
      | None => l
      end
  end.

Definition trim (l : list ascii) : list ascii :=
  let l1 := strip (List.length l) white_space l in
  rev (strip (List.length l1) (map (@rev ascii) white_space) (rev l1)).

Definition digit_value (c : ascii) : option Z :=
  let b := byte c in
  if (48 <=? b)%Z && (b <=? 57)%Z then Some (b - 48)%Z
  else if (97 <=? b)%Z && (b <=? 102)%Z then Some (b - 87)%Z
  else if (65 <=? b)%Z && (b <=? 70)%Z then Some (b - 55)%Z
  else None.

(** The leading digits of [l] in the given base: their value, their
    count, and what follows them. *)
Fixpoint digits_of (base : Z) (l : list ascii) (value count : Z)
  : Z * Z * list ascii :=
  match l with
  | c :: rest =>
      match digit_value c with
      | Some d =>
          if (d <? base)%Z then digits_of base rest (value * base + d)%Z (count + 1)%Z
          else (value, count, l)
      | None => (value, count, l)
      end
  | [] => (value, count, l)
  end.

Definition is_one_of (c : ascii) (s : string) : bool :=
  existsb (Ascii.eqb c) (chars s).

(** Whether [0b...], [0o...] or [0x...] denotes a number above zero;
    [None] when the text is no such literal. *)
Definition radix_positive (l : list ascii) : option bool :=
  match l with
  | zero :: p :: rest =>
      let base : Z :=
        (if is_one_of p "xX" then 16
         else if is_one_of p "oO" then 8
         else if is_one_of p "bB" then 2
         else 0)%Z in
      if negb (Ascii.eqb zero "0") || (base =? 0)%Z then None
      else
        match digits_of base rest 0 0 with
        | (v, n, []) => if (0 <? n)%Z then Some (0 <? v)%Z else None
        | _ => None
        end
  | _ => None
  end.

(** The value of an exponent part [e...] or [E...]; [None] when what is
    left of the text is neither an exponent part nor empty. *)
Definition exponent_of (l : list ascii) : option Z :=
  match l with
  | [] => Some 0%Z
  | e :: rest =>
      if is_one_of e "eE" then
        let '(negative, rest') :=
          match rest with
          | s :: r =>
              if Ascii.eqb s "+" then (false, r)
              else if Ascii.eqb s "-" then (true, r)
              else (false, rest)
          | [] => (false, rest)
          end in
        match digits_of 10 rest' 0 0 with
        | (v, n, []) =>
            if (0 <? n)%Z then Some (if negative then (- v)%Z else v) else None
        | _ => None
        end
      else None
  end.

(** Whether an unsigned decimal literal denotes a number that, rounded to
    a Number, is above zero (a literal up to 2^-1075 rounds to zero);
    [None] when the text is no such literal. *)
Definition decimal_positive (l : list ascii) : option bool :=
  if String.eqb (text l) "Infinity" then Some true
  else
    let '(whole, n1, after_whole) := digits_of 10 l 0 0 in
    let '(mantissa, n2, after_fraction) :=
      match after_whole with
      | c :: r =>
          if Ascii.eqb c "." then digits_of 10 r whole 0
          else (whole, 0%Z, after_whole)
      | [] => (whole, 0%Z, after_whole)
      end in
    if (n1 + n2 =? 0)%Z then None
    else
      match exponent_of after_fraction with
      | None => None
      | Some e =>
          let x := (e - n2)%Z in
          Some ((0 <? mantissa)%Z
                && ((0 <=? x)%Z || (10 ^ (- x) <? mantissa * 2 ^ 1075)%Z))
      end.

(** [ToNumber(s) > 0] for a text [s]: an empty or blank text is [0], a
    text that is no numeric literal is [NaN]. *)
Definition text_positive (s : string) : bool :=
  match trim (chars s) with
  | [] => false
  | c :: rest =>
      if Ascii.eqb c "-" then false
      else if Ascii.eqb c "+" then
        match decimal_positive rest with Some b => b | None => false end
      else
        match radix_positive (c :: rest) with
        | Some b => b
        | None =>
            match decimal_positive (c :: rest) with Some b => b | None => false end
        end
  end.

(** *** Objects and conversions *)

(** Indexed own properties of an array or a string, for [Object.assign]
    and [Object.keys]. *)
Fixpoint indexed_from {A} (f : A -> value) (i : Z) (l : list A) : obj :=
  match l with
  | [] => []
  | x :: rest => (Z_to_string i, f x) :: indexed_from f (i + 1) rest
  end.

(** The own enumerable properties of a value ([Object.assign] skips
    [undefined] and [null] sources; numbers and booleans have none). *)
Definition own_props (v : value) : obj :=
  match v with
  | VObj o => o
  | VArr l => indexed_from (fun x => x) 0 l
  | VStr s => indexed_from VStr 0 (code_units s)
  | _ => []
  end.

(** [Object.assign(target, source)] *)
Definition assign (target : obj) (source : value) : obj :=
  fold_left (fun acc kv => set (fst kv) (snd kv) acc) (own_props source) target.

(** [Object.keys(v)]; [None] stands for the [TypeError] thrown on
    [undefined] and [null]. *)
Definition object_keys (v : value) : option (list string) :=
  match v with
  | VUndefined | VNull => None
  | _ => Some (keys (own_props v))
  end.

(** Truthiness, as [!v], [v || w] and [v && w] test it. *)
Definition truthy (v : value) : bool :=
  match v with
  | VUndefined | VNull => false
  | VBool b => b
  | VNum z => negb (z =? 0)%Z
  | VStr s => negb (String.eqb s "")
  | VArr _ | VObj _ => true
  end.

Fixpoint join (sep : string) (l : list string) : string :=
  match l with
  | [] => ""
  | [x] => x
  | x :: rest => x ++ sep ++ join sep rest
  end.

(** Whether a value converts to a primitive.  A plain object does through
    [Object.prototype.toString], unless an own property named [toString]
    hides it: as data it is no function, and the conversion throws a
    [TypeError].  An array converts if its items do. *)
Fixpoint convertible (v : value) : bool :=
  match v with
  | VObj o => negb (has "toString" o)
  | VArr l => forallb convertible l
  | _ => true
  end.

(** The text of a value that converts: an array joins the texts of its
    items with a comma, [null] and [undefined] items giving nothing; a
    plain object gives [[object Object]]. *)
Fixpoint to_string (v : value) : string :=
  match v with
  | VUndefined => "undefined"
  | VNull => "null"
  | VBool true => "true"
  | VBool false => "false"
  | VNum z => Z_to_string z
  | VStr s => s
  | VArr l =>
      join ","
        (map (fun x => match x with
                       | VUndefined | VNull => ""
                       | _ => to_string x
                       end) l)
  | VObj _ => "[object Object]"
  end.

Definition cannot_convert : JsError :=
  TypeError "Cannot convert object to primitive value".

(** [String(v)], and the text of [v] in [s + v]. *)
Definition to_text (v : value) : JsError + string :=
  if convertible v then inr (to_string v) else inl cannot_convert.

(** [typeof]-like classification used by the schema validator. *)
Definition type_of (v : value) : string :=
  match v with
  | VUndefined => "undefined"
  | VNull => "null"
  | VBool _ => "boolean"
  | VNum _ => "number"
  | VStr _ => "string"
  | VArr _ => "array"
  | VObj _ => "object"
  end.

(** [v.errors], [v.length], [v[0]]: an own property read on a value that
    is neither [undefined] nor [null] (the callers see to that), for a
    name that [Object.prototype] does not have. *)
Definition prop (v : value) (k : string) : value :=
  match v with
  | VObj o => get k o
  | VArr l =>
      if String.eqb k "length" then VNum (Z.of_nat (List.length l))
      else get k (indexed_from (fun x => x) 0 l)
  | VStr s =>
      if String.eqb k "length" then VNum (Z.of_nat (List.length (code_units s)))
      else get k (indexed_from VStr 0 (code_units s))
  | _ => VUndefined
  end.

(** [v > 0]: [undefined] converts to [NaN], [null] to [0], a boolean to
    [0] or [1], a text by [ToNumber], and an array or object through its
    text; a value that does not convert throws. *)
Definition gt_zero (v : value) : JsError + bool :=
  match v with
  | VUndefined | VNull => inr false
  | VBool b => inr b
  | VNum z => inr (0 <? z)%Z
  | VStr s => inr (text_positive s)
  | VArr _ | VObj _ =>
      match to_text v with
      | inr s => inr (text_positive s)
      | inl e => inl e
      end
  end.

(** A built-in function, as [String] prints it (in the wording of V8, the
    engine of Node.js). *)
Definition native_function (name : string) : value :=
  VStr ("function " ++ name ++ "() { [native code] }")%string.

(** What every plain object inherits from [Object.prototype]; a function
    stands as the text that [String] gives for it, so that the text of a
    member can be taken.  The accessor [__proto__] reads as the prototype
    itself. *)
Definition object_prototype : obj :=
  ([("constructor", native_function "Object");
    ("__proto__", VObj [])]
   ++ map (fun name => (name, native_function name))
        ["toString"; "toLocaleString"; "valueOf"; "hasOwnProperty";
         "isPrototypeOf"; "propertyIsEnumerable"; "__defineGetter__";
         "__defineSetter__"; "__lookupGetter__"; "__lookupSetter__"])%list.

(** What an array inherits: the members of [Array.prototype] (those of
    ES2023, as Node.js has them from version 20), then the members of
    [Object.prototype] that they do not hide. *)
Definition array_prototype : obj :=
  ([("constructor", native_function "Array");
    ("__proto__", VArr [])]
   ++ map (fun name => (name, native_function name))
        ["at"; "concat"; "copyWithin"; "fill"; "find"; "findIndex"; "findLast";
         "findLastIndex"; "lastIndexOf"; "pop"; "push"; "reverse"; "shift";
         "unshift"; "slice"; "sort"; "splice"; "includes"; "indexOf"; "join";
         "keys"; "entries"; "values"; "forEach"; "filter"; "flat"; "flatMap";
         "map"; "every"; "some"; "reduce"; "reduceRight"; "toLocaleString";
         "toString"; "toReversed"; "toSorted"; "toSpliced"; "with"]
   ++ object_prototype)%list.

Definition inherited (v : value) : obj :=
  match v with
  | VObj _ => object_prototype
  | VArr _ => array_prototype
  | _ => []
  end.

(** The properties of an object or array that are its own: the enumerable
    ones and, for an array, [length]. *)
Definition owns (k : string) (v : value) : bool :=
  has k (own_props v)
  || match v with
     | VArr _ => String.eqb k "length"
     | _ => false
     end.

(** [k in v]: own or inherited; [None] stands for the [TypeError] thrown
    when [v] is no object. *)
Definition in_operator (k : string) (v : value) : option bool :=
  match v with
  | VObj _ | VArr _ => Some (owns k v || has k (inherited v))
  | _ => None
  end.

(** [v[k]] for an object or array [v]: its own property, else the
    inherited member, else [undefined]. *)
Definition member (v : value) (k : string) : value :=
  if owns k v then prop v k else get k (inherited v).

Definition hex_digit (n : nat) : ascii :=
  match n with
  | 0 => "0" | 1 => "1" | 2 => "2" | 3 => "3" | 4 => "4" | 5 => "5"
  | 6 => "6" | 7 => "7" | 8 => "8" | 9 => "9" | 10 => "A" | 11 => "B"
  | 12 => "C" | 13 => "D" | 14 => "E" | _ => "F"
  end%char.

Definition in_range (lo hi c : ascii) : bool :=
  (nat_of_ascii lo <=? nat_of_ascii c)%nat && (nat_of_ascii c <=? nat_of_ascii hi)%nat.

(** The characters [encodeURIComponent] leaves alone:
    [A-Z a-z 0-9 - _ . ! ~ * ' ( )]. *)
Definition uri_unreserved (c : ascii) : bool :=
  in_range "A" "Z" c || in_range "a" "z" c || in_range "0" "9" c
  || existsb (Ascii.eqb c) ["-"; "_"; "."; "!"; "~"; "*"; "'"; "("; ")"]%char.

Definition percent_byte (c : ascii) : string :=
  String "%" (String (hex_digit (nat_of_ascii c / 16))
             (String (hex_digit (nat_of_ascii c mod 16)) EmptyString)).

Fixpoint percent_encode (s : string) : string :=
  match s with
  | EmptyString => EmptyString
  | String c rest =>
      (if uri_unreserved c then String c EmptyString else percent_byte c)
      ++ percent_encode rest
  end.

(** [encodeURIComponent] of a text: a surrogate on its own is a
    [URIError]. *)
Definition encode_text (s : string) : JsError + string :=
  if has_lone_surrogate s then inl (URIError "URI malformed")
  else inr (percent_encode s).

(** [encodeURIComponent(v)] *)
Definition encodeURIComponent (v : value) : JsError + string :=
  match to_text v with
  | inr s => encode_text s
  | inl e => inl e
  end.

End JS.
Import JS.

(** ** Strings: the two regular expressions of the source *)

(** [s.replace(/&#x2F;/g, '/')]: every occurrence, left to right. *)
Fixpoint replace_encoded_slashes (s : string) : string :=
  match s with
  | EmptyString => EmptyString
  | String c s' =>
      if negb (Ascii.eqb c "&") then String c (replace_encoded_slashes s')
      else
        match s' with
        | String c2 (String c3 (String c4 (String c5 (String c6 rest)))) =>
            if Ascii.eqb c2 "#" && Ascii.eqb c3 "x" && Ascii.eqb c4 "2"
               && Ascii.eqb c5 "F" && Ascii.eqb c6 ";"
            then String "/" (replace_encoded_slashes rest)
            else String c (replace_encoded_slashes s')
        | _ => String c (replace_encoded_slashes s')
        end
  end.

(** [s.match(pat) !== null] for a pattern that is a plain text. *)
Fixpoint contains (pat s : string) : bool :=
  String.prefix pat s
  || match s with
     | EmptyString => false
     | String _ rest => contains pat rest
     end.

(** [path.match(/sys\/health/) !== null] *)
Definition matches_sys_health (path : string) : bool :=
  contains "sys/health" path.

(** ** Promises, errors and the trace of a call *)

(** What [rp] resolves with: [response.statusCode], [response.body] and
    [response.request.path].  The path is [None] when the response has no
    [request], or a [request] whose [path] is no string: reading
    [response.request.path.match] then throws a [TypeError]. *)
Record Response : Type := mkResponse {
  statusCode : Z;
  body : value;
  request_path : option string
}.

(** A call returns a promise, which resolves or rejects, or it throws. *)
Inductive Completion (A : Type) : Type :=
| Resolved (a : A)
| Rejected (e : JsError)
| Threw (e : JsError).
Arguments Resolved {A} a.
Arguments Rejected {A} e.
Arguments Threw {A} e.

(** What a call does on the way: [tv4.validate(data, schema)] and
    [rp(options)]. *)
Inductive Event : Type :=
| Validated (data schema : value)
| Sent (options : obj).

(** A call: its trace and how it completes. *)
Definition Call (A : Type) : Type := (list Event * Completion A)%type.

(** [Promise.resolve(a)] *)
Definition resolve {A} (a : A) : Call A := ([], Resolved a).

(** An exception thrown inside a [then] callback rejects the promise. *)
Definition caught {A} (c : Completion A) : Completion A :=
  match c with
  | Threw e => Rejected e
  | _ => c
  end.

(** [p.then(f)] for a function [f]. *)
Definition then_ {A B} (p : Call A) (f : A -> Call B) : Call B :=
  match p with
  | (t, Resolved a) =>
      let (t', c) := f a in
      ((t ++ t')%list, caught c)
  | (t, Rejected e) => (t, Rejected e)
  | (t, Threw e) => (t, Threw e)
  end.

(** [p.then(q)] where [q] is a promise and not a function: the argument
    is evaluated, then ignored, and [p] passes through. *)
Definition then_promise {A B} (p : Call A) (q : Call B) : Call A :=
  ((fst p ++ fst q)%list, snd p).

Definition requests_of (t : list Event) : list obj :=
  flat_map (fun ev => match ev with Sent o => [o] | Validated _ _ => [] end) t.

Definition validations_of (t : list Event) : list (value * value) :=
  flat_map (fun ev => match ev with Validated d s => [(d, s)] | Sent _ => [] end) t.

(** ** The client *)

(** The dependencies that [module.exports] loads from [config]. *)
Record Config : Type := mkConfig {
  (** [tv4.validate(data, schema)]: [None] when valid, else [tv4.error]. *)
  tv4_validate : value -> value -> option value;
  (** [mustache.render(template, view)]; [None] when it throws. *)
  mustache_render : string -> value -> option string;
  (** [rp(options)]: the promise of the full response. *)
  rp : obj -> Completion (option Response);
  (** [config.requestOptions] *)
  requestOptions : value
}.

Record Client : Type := mkClient {
  apiVersion : string;
  endpoint : string;
  token : value
}.

(** An entry of the command table. *)
Record Command : Type := mkCommand {
  method : string;
  path : string;
  schema : value
}.

(** [a === b] against a primitive [b]. *)
Definition strict_eq (a b : value) : bool :=
  match a, b with
  | VUndefined, VUndefined => true
  | VNull, VNull => true
  | VBool x, VBool y => Bool.eqb x y
  | VNum x, VNum y => same_number x y
  | VStr x, VStr y => String.eqb x y
  | _, _ => false
  end.

(** [new Error(message)]: the message is the text of the argument, and
    empty when the argument is [undefined]; an argument that does not
    convert throws. *)
Definition new_Error (message : value) : JsError + JsError :=
  match message with
  | VUndefined => inr (Error "")
  | _ =>
      match to_text message with
      | inr m => inr (Error m)
      | inl e => inl e
      end
  end.

(** Lines 35-40: the message, unless the comparison of line 36 throws. *)
Definition message_of (response : Response) : JsError + value :=
  let status := VStr ("Status " ++ to_string (VNum (statusCode response))) in
  if truthy (body response) && truthy (prop (body response) "errors") then
    match gt_zero (prop (prop (body response) "errors") "length") with
    | inl e => inl e
    | inr true => inr (prop (prop (body response) "errors") "0")
    | inr false => inr status
    end
  else inr status.

Definition handleVaultResponse (response : option Response) : Completion value :=
  match response with
  | None => Rejected (Error "No response passed")
  | Some response =>
      if negb (statusCode response =? 200)%Z && negb (statusCode response =? 204)%Z then
        match request_path response with
        | None => Threw (TypeError "Cannot read property 'path' of undefined")
        | Some p =>
            if matches_sys_health p then Resolved (body response)
            else
              match message_of response with
              | inl e => Threw e
              | inr message =>
                  match new_Error message with
                  | inl e => Threw e
                  | inr error => Rejected error
                  end
              end
        end
      else Resolved (body response)
  end.

Definition requestSchema : value :=
  VObj [("type", VStr "object");
        ("properties", VObj [("path", VObj [("type", VStr "string")]);
                             ("method", VObj [("type", VStr "string")])]);
        ("required", VArr [VStr "path"; VStr "method"])].

(** [headers[name] = v] in strict mode: a primitive receiver throws.  An
    array receiver takes the property like any object; it is represented
    by the object of its indexed properties and the new one. *)
Definition assign_prop (receiver : value) (name : string) (v : value) : option value :=
  match receiver with
  | VObj o => Some (VObj (set name v o))
  | VArr _ => Some (VObj (set name v (own_props receiver)))
  | _ => None
  end.

(** [target.k1.k2...kn = v], along properties that hold objects. *)
Fixpoint write_at (place : list string) (v : value) (o : obj) : obj :=
  match place with
  | [] => o
  | [k] => set k v o
  | k :: rest =>
      match lookup k o with
      | Some (VObj inner) => set k (VObj (write_at rest v inner)) o
      | _ => o
      end
  end.

(** The places where the options of a generated operation hold the object
    that is their [headers]. *)
Definition shared_headers (args : obj) : list (list string) :=
  match get "requestOptions" args with
  | VObj request_options =>
      if has "headers" request_options
      then [["json"; "requestOptions"; "headers"]]
      else []
  | _ => []
  end.

Section Client.

Variable cfg : Config.
Variable client : Client.

(** Lines 73-77: the text that is rendered, then the rendered text with
    its encoded slashes replaced. *)
Definition uri_template (options : obj) : string :=
  endpoint client ++ "/" ++ apiVersion client ++ to_string (get "path" options).

(** The URI; [None] when line 73 or line 75 throws: [options.path] does
    not convert to a text, or the templating engine throws. *)
Definition request_uri (options : obj) : option string :=
  if convertible (get "path" options) then
    option_map replace_encoded_slashes
      (mustache_render cfg (uri_template options) (get "json" options))
  else None.

(** What is thrown then. *)
Definition uri_failure (options : obj) : JsError :=
  if convertible (get "path" options) then RenderError else cannot_convert.

(** The test of line 79. *)
Definition token_test (t : value) : bool :=
  negb (strict_eq t VUndefined) || negb (strict_eq t VNull)
  || negb (strict_eq t (VStr "")).

(** [rp(options)]: the HTTP call, recorded in the trace. *)
Definition send (options : obj) : Call (option Response) :=
  ([Sent options], rp cfg options).

(** Line 80 assigns into the object that [options.headers] holds.  When
    [options] holds that very object in other places too, the assignment
    shows there as well: [places] names them, each by the property names
    that lead to it.  A headers object that line 78 has just made is held
    nowhere else. *)
Definition write_through (places : list (list string)) (given headers : value)
  (options : obj) : obj :=
  fold_left
    (fun o place => if truthy given then write_at place headers o else o)
    places options.

(** [client.request(options)], for an [options] that holds its headers
    object in the given places beside [options.headers]. *)
Definition request_with (places : list (list string)) (options : obj) : Call value :=
  let checked := [Validated (VObj options) requestSchema] in
  match tv4_validate cfg (VObj options) requestSchema with
  | Some err => (checked, Rejected (ValidationError err))
  | None =>
      match request_uri options with
      | None => (checked, Threw (uri_failure options))
      | Some uri =>
          let given := get "headers" options in
          let headers := if truthy given then given else VObj [] in
          let headers' :=
            if token_test (token client)
            then assign_prop headers "X-Vault-Token" (token client)
            else Some headers in
          match headers' with
          | None => (checked, Threw (TypeError "Cannot create property 'X-Vault-Token'"))
          | Some headers' =>
              let options := set "headers" headers' options in
              let options := write_through places given headers' options in
              let options := set "uri" (VStr uri) options in
              let (t, c) := then_ (send options) (fun r => ([], handleVaultResponse r)) in
              ((checked ++ t)%list, c)
          end
      end
  end.

(** [client.request(options)], for an [options] whose headers object is
    held nowhere else in it. *)
Definition request (options : obj) : Call value := request_with [] options.

(** The generic verbs: [Object.assign({}, config.requestOptions,
    requestOptions)], then the path and method (and body) of the verb. *)
Definition base_options (request_options : value) : obj :=
  assign (assign [] (requestOptions cfg)) request_options.

Definition help (p : string) (request_options : value) : Call value :=
  let options := base_options request_options in
  let options := set "path" (VStr ("/" ++ p ++ "?help=1")) options in
  let options := set "method" (VStr "GET") options in
  request options.

Definition write (p : string) (data : value) (request_options : value) : Call value :=
  let options := base_options request_options in
  let options := set "path" (VStr ("/" ++ p)) options in
  let options := set "json" data options in
  let options := set "method" (VStr "PUT") options in
  request options.

Definition read (p : string) (request_options : value) : Call value :=
  let options := base_options request_options in
  let options := set "path" (VStr ("/" ++ p)) options in
  let options := set "method" (VStr "GET") options in
  request options.

Definition list_ (p : string) (request_options : value) : Call value :=
  let options := base_options request_options in
  let options := set "path" (VStr ("/" ++ p)) options in
  let options := set "method" (VStr "LIST") options in
  request options.

Definition delete (p : string) (request_options : value) : Call value :=
  let options := base_options request_options in
  let options := set "path" (VStr ("/" ++ p)) options in
  let options := set "method" (VStr "DELETE") options in
  request options.

Definition validate (json schema : value) : Call unit :=
  if strict_eq schema VUndefined then resolve tt
  else
    match tv4_validate cfg json schema with
    | Some err => ([Validated json schema], Rejected (ValidationError err))
    | None => ([Validated json schema], Resolved tt)
    end.

(** The loop of [extendOptions]: [params.push(...)] for each key of the
    query schema that is in the payload; the first exception ends it. *)
Fixpoint push_params (keys : list string) (json : value) (params : list string)
  : JsError + list string :=
  match keys with
  | [] => inr params
  | key :: rest =>
      match in_operator key json with
      | None => inl (TypeError "Cannot use 'in' operator")
      | Some true =>
          match encodeURIComponent (member json key) with
          | inl e => inl e
          | inr encoded =>
              push_params rest json (params ++ [(key ++ "=" ++ encoded)%string])%list
          end
      | Some false => push_params rest json params
      end
  end.

Definition nullish (v : value) : bool :=
  match v with
  | VUndefined | VNull => true
  | _ => false
  end.

Definition extendOptions (conf : Command) (options : obj) : Call obj :=
  if nullish (schema conf)
  then ([], Threw (TypeError "Cannot read property 'query'"))
  else
    let schema := prop (schema conf) "query" in
    if negb (truthy schema) then resolve options
    else
      match object_keys (prop schema "properties") with
      | None => ([], Threw (TypeError "Cannot convert undefined or null to object"))
      | Some keys =>
          match push_params keys (get "json" options) [] with
          | inl e => ([], Threw e)
          | inr params =>
              if (0 <? List.length params)%nat then
                match to_text (get "path" options) with
                | inl e => ([], Threw e)
                | inr p => resolve (set "path" (VStr (p ++ "?" ++ join "&" params)) options)
                end
              else resolve options
          end
      end.

(** [generateFunction(name, conf)]: the function it installs as
    [client[name]], applied to [args].  [Object.assign] copies the
    properties of [args.requestOptions] as they are, so when one of them is
    [headers], [options.headers] is the object that [args], the body
    [options.json], holds as [args.requestOptions.headers]. *)
Definition generateFunction (conf : Command) (args : obj) : Call value :=
  let options := base_options (get "requestOptions" args) in
  let options := set "method" (VStr (method conf)) options in
  let options := set "path" (VStr (path conf)) options in
  let options := set "json" (VObj args) options in
  let places := shared_headers args in
  if negb (truthy (schema conf)) then request_with places options
  else
    then_
      (then_
         (then_promise
            (validate (get "json" options) (prop (schema conf) "req"))
            (validate (get "json" options) (prop (schema conf) "query")))
         (fun _ => extendOptions conf options))
      (fun extendedOptions => request_with places extendedOptions).

End Client.

(** ** Reference behaviour of the default dependencies *)

(** Modelled from the spec: the templating engine ([mustache], not part of
    this repository), for templates whose tags are plain [{{name}}]
    variables: a tag is replaced by the HTML-escaped text of the view's
    value for that name, and by nothing when the view has no such field.
    [None] stands for an unclosed tag, for a value that does not convert
    to a text, for a view that is not an object where a tag needs one, and
    for templates outside this fragment (sections, partials, unescaped and
    dotted names, names that the view only inherits). *)
Module Mustache.

Definition is_space (c : ascii) : bool :=
  existsb (Nat.eqb (nat_of_ascii c)) [32; 9; 10; 11; 12; 13].

Definition entity (keep_slash : bool) (c : ascii) : string :=
  if Ascii.eqb c "&" then "&amp;"
  else if Ascii.eqb c "<" then "&lt;"
  else if Ascii.eqb c ">" then "&gt;"
  else if Ascii.eqb c (ascii_of_nat 34) then "&quot;"
  else if Ascii.eqb c "'" then "&#39;"
  else if Ascii.eqb c "/" then (if keep_slash then "/" else "&#x2F;")
  else if Ascii.eqb c "`" then "&#x60;"
  else if Ascii.eqb c "=" then "&#x3D;"
  else String c EmptyString.

Fixpoint escape_with (keep_slash : bool) (s : string) : string :=
  match s with
  | EmptyString => EmptyString
  | String c rest => entity keep_slash c ++ escape_with keep_slash rest
  end.

(** [mustache.escape] *)
Definition escapeHtml : string -> string := escape_with false.

(** The same escaping with the slash left as it is. *)
Definition escape_keeping_slash : string -> string := escape_with true.

Fixpoint trim_left (s : string) : string :=
  match s with
  | EmptyString => EmptyString
  | String c rest => if is_space c then trim_left rest else s
  end.

Fixpoint trim_right (s : string) : string :=
  match s with
  | EmptyString => EmptyString
  | String c rest =>
      let rest' := trim_right rest in
      if is_space c && String.eqb rest' "" then EmptyString else String c rest'
  end.

Definition is_sigil (c : ascii) : bool :=
  existsb (Ascii.eqb c) ["#"; "^"; "/"; ">"; "{"; "&"; "="; "!"]%char.

Definition starts_with_sigil (name : string) : bool :=
  match name with
  | String c _ => is_sigil c
  | EmptyString => false
  end.

(** The text a tag with the given content renders to. *)
Definition render_tag (esc : string -> string) (view : value) (content : string)
  : option string :=
  let name := trim_right (trim_left content) in
  if starts_with_sigil name || contains "." name then None
  else
    match view with
    | VObj o =>
        match lookup name o with
        | Some VUndefined | Some VNull => Some EmptyString
        | Some v => if convertible v then Some (esc (to_string v)) else None
        | None => if has name object_prototype then None else Some EmptyString
        end
    | _ => None
    end.

(** The scanner: [tag = None] in plain text, [tag = Some content] inside
    a tag whose content so far is [content]. *)
Fixpoint scan (esc : string -> string) (view : value) (tag : option string)
  (s : string) : option string :=
  match tag with
  | None =>
      match s with
      | EmptyString => Some EmptyString
      | String c s' =>
          let text := option_map (String c) (scan esc view None s') in
          if Ascii.eqb c "{" then
            match s' with
            | String c2 s'' =>
                if Ascii.eqb c2 "{" then scan esc view (Some EmptyString) s'' else text
            | EmptyString => text
            end
          else text
      end
  | Some content =>
      match s with
      | EmptyString => None
      | String c s' =>
          let more := scan esc view (Some (content ++ String c EmptyString)) s' in
          if Ascii.eqb c "}" then
            match s' with
            | String c2 s'' =>
                if Ascii.eqb c2 "}" then
                  match render_tag esc view content, scan esc view None s'' with
                  | Some v, Some r => Some (v ++ r)
                  | _, _ => None
                  end
                else more
            | EmptyString => more
            end
          else more
      end
  end.

Definition render_with (esc : string -> string) (template : string) (view : value)
  : option string :=
  scan esc view None template.

(** [mustache.render(template, view)] *)
Definition render : string -> value -> option string := render_with escapeHtml.

End Mustache.

(** Modelled from the spec: the JSON-Schema validator ([tv4], not part of
    this repository), for the keywords [type], [required] and
    [properties]: the verdict, and for an invalid value an error carrying
    the data path and message of a violation. *)
Module Tv4.

Definition violation (data_path message : string) : value :=
  VObj [("message", VStr message); ("dataPath", VStr data_path)].

Definition type_allowed (data : value) (t : value) : bool :=
  match t with
  | VStr name =>
      String.eqb name (type_of data)
      || (String.eqb name "integer" && String.eqb (type_of data) "number")
  | _ => false
  end.

Definition check_type (data_path : string) (data : value) (keywords : obj)
  : option value :=
  let fail :=
    Some (violation data_path ("Invalid type: " ++ type_of data)) in
  match lookup "type" keywords with
  | Some (VStr name) => if type_allowed data (VStr name) then None else fail
  | Some (VArr names) => if existsb (type_allowed data) names then None else fail
  | _ => None
  end.

Fixpoint first_missing (data : obj) (names : list value) : option string :=
  match names with
  | [] => None
  | VStr name :: rest =>
      if strict_eq (get name data) VUndefined then Some name
      else first_missing data rest
  | _ :: rest => first_missing data rest
  end.

Definition check_required (data_path : string) (data : value) (keywords : obj)
  : option value :=
  match data, lookup "required" keywords with
  | VObj o, Some (VArr names) =>
      match first_missing o names with
      | Some name =>
          Some (violation data_path ("Missing required property: " ++ name))
      | None => None
      end
  | _, _ => None
  end.

Fixpoint validate_at (data_path : string) (schema data : value) {struct schema}
  : option value :=
  match schema with
  | VObj keywords =>
      match check_type data_path data keywords with
      | Some e => Some e
      | None =>
          match check_required data_path data keywords with
          | Some e => Some e
          | None =>
              match data with
              | VObj o =>
                  (fix in_keywords (kws : list (string * value)) : option value :=
                     match kws with
                     | [] => None
                     | (k, VObj declared) :: rest =>
                         if String.eqb k "properties" then
                           (fix in_properties (ps : list (string * value))
                              : option value :=
                              match ps with
                              | [] => None
                              | (name, sub) :: more =>
                                  if strict_eq (get name o) VUndefined
                                  then in_properties more
                                  else
                                    match validate_at (data_path ++ "/" ++ name)
                                            sub (get name o) with
                                    | Some e => Some e
                                    | None => in_properties more
                                    end
                              end) declared
                         else in_keywords rest
                     | _ :: rest => in_keywords rest
                     end) keywords
              | _ => None
              end
          end
      end
  | _ => None
  end.

(** [tv4.validate(data, schema)]: [None] when valid, else [tv4.error]. *)
Definition validate (data schema : value) : option value :=
  validate_at "" schema data.

End Tv4.

(** ** Sample dependencies, for evaluating the client on concrete calls *)

Fixpoint from_first_slash (s : string) : string :=
  match s with
  | EmptyString => EmptyString
  | String c rest => if Ascii.eqb c "/" then s else from_first_slash rest
  end.

(** The path of an absolute URI: what follows the host. *)
Definition path_of_uri (uri : string) : string :=
  match String.index 0 "://" uri with
  | Some n => from_first_slash (String.substring (n + 3) (String.length uri) uri)
  | None => uri
  end.

(** A transport whose server answers every request alike. *)
Definition answering (status : Z) (response_body : value) (options : obj)
  : Completion (option Response) :=
  Resolved (Some (mkResponse status response_body
                    (Some (path_of_uri (to_string (get "uri" options)))))).

(** The default validator and templating engine, on the fragments
    modelled above, with a given transport and no default options. *)
Definition reference_config (transport : obj -> Completion (option Response)) : Config :=
  mkConfig Tv4.validate Mustache.render transport VUndefined.

(** The client of a default configuration with token [t]. *)
Definition local_client (t : value) : Client :=
  mkClient "v1" "http://127.0.0.1:8200" t.

(** ** Notions of the specification and sample calls *)

(** The first entry of [body.errors], when it exists and is non-empty: the
    first item of a list, the first character of a text, and the property
    [0] of an object that gives itself a [length] above zero. *)
Definition first_entry (errors : value) : option value :=
  match errors with
  | VArr (first :: _) => Some first
  | VStr s =>
      match code_units s with
      | first :: _ => Some (VStr first)
      | [] => None
      end
  | VObj o =>
      match gt_zero (get "length" o) with
      | inr true => Some (get "0" o)
      | _ => None
      end
  | _ => None
  end.

(** The message the normalizer is specified to fail with. *)
Definition failure_message (r : Response) : value :=
  match first_entry (prop (body r) "errors") with
  | Some m => m
  | None => VStr ("Status " ++ Z_to_string (statusCode r))
  end.

(** Whether the [length] that an object gives itself can be compared with
    zero; every other value has a length that can, or none. *)
Definition length_converts (errors : value) : bool :=
  match errors with
  | VObj o => convertible (get "length" o)
  | _ => true
  end.

(** A response whose first error is an object that hides [toString]. *)
Definition opaque_error : Response :=
  mkResponse 500 (VObj [("errors", VArr [VObj [("toString", VNum 1)]])])
    (Some "/v1/secret/app").

(** A response whose list of errors is an object with a text for its
    length. *)
Definition counted_errors : Response :=
  mkResponse 500
    (VObj [("errors", VObj [("0", VStr "permission denied"); ("length", VStr "1")])])
    (Some "/v1/secret/app").

Definition not_found : Response :=
  mkResponse 404 (VObj [("errors", VArr [VStr "no such path"])])
    (Some "/v1/secret/missing").

Definition sealed : Response :=
  mkResponse 500 (VObj [("sealed", VBool true)]) (Some "/v1/sys/health").


(** How [rp(options).then(handleVaultResponse)] settles: an exception of
    the normalizer rejects the promise. *)
Definition settle (c : Completion (option Response)) : Completion value :=
  match c with
  | Resolved r => caught (handleVaultResponse r)
  | Rejected e => Rejected e
  | Threw e => Threw e
  end.

(** The headers object that line 78 leaves in [options.headers]. *)
Definition headers_or_empty (options : obj) : value :=
  if truthy (get "headers" options) then get "headers" options else VObj [].

(** The options object that reaches [rp], when one does. *)
Definition outgoing_with (cfg : Config) (client : Client) (places : list (list string))
  (options : obj) : option obj :=
  match tv4_validate cfg (VObj options) requestSchema,
        request_uri cfg client options,
        assign_prop (headers_or_empty options) "X-Vault-Token" (token client) with
  | None, Some uri, Some headers =>
      Some (set "uri" (VStr uri)
              (write_through places (get "headers" options) headers
                 (set "headers" headers options)))
  | _, _, _ => None
  end.

Definition outgoing (cfg : Config) (client : Client) (options : obj) : option obj :=
  outgoing_with cfg client [] options.

Definition nonempty_token (t : value) : bool :=
  match t with
  | VStr s => negb (String.eqb s "")
  | _ => false
  end.

(** The header as the specification words it: the client's token when a
    non-empty token is configured and the caller has not set the header,
    and what the caller passed otherwise. *)
Definition specified_token_header (client_token caller_headers : value) : value :=
  let already := prop caller_headers "X-Vault-Token" in
  if nonempty_token client_token && strict_eq already VUndefined
  then client_token
  else already.

Definition token_header_as_specified (cfg : Config) (client : Client) (options : obj)
  : Prop :=
  forall o, In o (requests_of (fst (request cfg client options))) ->
            prop (get "headers" o) "X-Vault-Token"
            = specified_token_header (token client) (headers_or_empty options).

Definition read_with_own_token : obj :=
  [("path", VStr "/secret/app"); ("method", VStr "GET");
   ("headers", VObj [("X-Vault-Token", VStr "s.caller")])].

Definition sent_by (cfg : Config) (client : Client) (options : obj) : obj :=
  hd [] (requests_of (fst (request cfg client options))).






(** An operation whose query schema declares a name that every object
    inherits. *)
Definition inherited_key_command : Command :=
  mkCommand "GET" "/secret/{{name}}"
    (VObj [("query",
            VObj [("type", VStr "object");
                  ("properties", VObj [("toString", VObj [])])])]).

Definition list_command : Command :=
  mkCommand "GET" "/secret/{{name}}"
    (VObj [("query",
            VObj [("type", VStr "object");
                  ("properties", VObj [("list", VObj []); ("depth", VObj [])])])]).

Definition list_options (payload : obj) : obj :=
  [("method", VStr "GET"); ("path", VStr "/secret/{{name}}"); ("json", VObj payload)].

(** The options object a generated operation starts from. *)
Definition operation_options (cfg : Config) (conf : Command) (args : obj) : obj :=
  set "json" (VObj args)
    (set "path" (VStr (path conf))
       (set "method" (VStr (method conf))
          (base_options cfg (get "requestOptions" args)))).

Definition sent_by_operation (cfg : Config) (client : Client) (conf : Command) (args : obj)
  : obj :=
  hd [] (requests_of (fst (generateFunction cfg client conf args))).

Definition list_args : obj :=
  [("name", VStr "app"); ("list", VBool true);
   ("requestOptions", VObj [("timeout", VNum 500)])].

(** Arguments that bring a header of their own. *)
Definition traced_args : obj :=
  [("name", VStr "app");
   ("requestOptions", VObj [("headers", VObj [("X-Trace", VStr "1")])])].

Definition strict_list_command : Command :=
  mkCommand "GET" "/secret/{{name}}"
    (VObj [("query",
            VObj [("type", VStr "object");
                  ("properties", VObj [("list", VObj [("type", VStr "boolean")])]);
                  ("required", VArr [VStr "list"])])]).

Definition ill_typed_args : obj := [("name", VStr "app"); ("list", VStr "yes")].

(** A verb performs [client.request] on options with the given method and
    path, and validates nothing but those options. *)
Definition performs (cfg : Config) (client : Client) (call : Call value)
  (verb_method verb_path : string) (options : obj) : Prop :=
  call = request cfg client options
  /\ get "method" options = VStr verb_method
  /\ get "path" options = VStr verb_path
  /\ validations_of (fst call) = [(VObj options, requestSchema)].

Definition is_string (v : value) : bool :=
  match v with
  | VStr _ => true
  | _ => false
  end.

(** A validator that agrees with the JSON-Schema reading of
    [requestSchema]. *)
Definition checks_request_options (cfg : Config) : Prop :=
  forall data, tv4_validate cfg data requestSchema = None
               <-> Tv4.validate data requestSchema = None.

Fixpoint no_char (c : ascii) (s : string) : bool :=
  match s with
  | EmptyString => true
  | String a rest => negb (Ascii.eqb a c) && no_char c rest
  end.

(** No "&" of the text is directly followed by "#" or by "{". *)
Fixpoint ampersands_apart (s : string) : bool :=
  match s with
  | EmptyString => true
  | String c rest =>
      (if Ascii.eqb c "&" then
         match rest with
         | String c2 _ => negb (Ascii.eqb c2 "#") && negb (Ascii.eqb c2 "{")
         | EmptyString => true
         end
       else true)
      && ampersands_apart rest
  end.

(** The rendered path: each [{{field}}] replaced by the payload's value
    for that field, HTML-escaped but for the slash, and by nothing when
    the field is absent. *)
Definition rendered_path (template : string) (payload : value) : option string :=
  Mustache.render_with Mustache.escape_keeping_slash template payload.

(** The rendered path as the specification words it: each [{{field}}]
    replaced by the payload's value itself. *)
Definition substituted_path (template : string) (payload : value) : option string :=
  Mustache.render_with (fun raw => raw) template payload.

Definition specified_uri (client : Client) (template : string) (payload : value)
  : option string :=
  option_map (fun p => endpoint client ++ "/" ++ apiVersion client ++ p)
    (substituted_path template payload).

(** A templating engine that renders variable tags as mustache does. *)
Definition renders_variables (cfg : Config) : Prop :=
  forall template view r,
    Mustache.render template view = Some r ->
    mustache_render cfg template view = Some r.

Definition read_nested : obj :=
  [("path", VStr "/secret/{{name}}"); ("method", VStr "GET");
   ("json", VObj [("name", VStr "a/b/c")])].

Definition read_ampersand : obj :=
  [("path", VStr "/secret/{{name}}"); ("method", VStr "GET");
   ("json", VObj [("name", VStr "a&b")])].

Definition read_app : obj :=
  [("path", VStr "/secret/x"); ("method", VStr "GET");
   ("json", VObj [("name", VStr "app")])].

Definition templated_client : Client :=
  mkClient "v1" "http://vault/{{name}}" (VStr "s.client").

Definition html_special (c : ascii) : bool :=
  existsb (Ascii.eqb c) ["&"; "<"; ">"; ascii_of_nat 34; "'"; "`"; "="]%char.

Fixpoint plain_text (s : string) : bool :=
  match s with
  | EmptyString => true
  | String c rest => negb (html_special c) && plain_text rest
  end.

(** ** Construction of the client *)

(** [a || b] *)
Definition or_else (a b : value) : value := if truthy a then a else b.

(** The variables of [process.env] that the module reads. *)
Record Environment : Type := mkEnvironment {
  VAULT_ADDR : option string;
  VAULT_TOKEN : option string;
  VAULT_SKIP_VERIFY : option string
}.

(** [process.env.NAME]: the text of the variable, [undefined] when it is
    not set. *)
Definition env_value (v : option string) : value :=
  match v with
  | Some s => VStr s
  | None => VUndefined
  end.

(** Line 22: [strictSSL: !process.env.VAULT_SKIP_VERIFY] *)
Definition strictSSL (env : Environment) : bool :=
  negb (truthy (env_value (VAULT_SKIP_VERIFY env))).

(** Lines 50-52: the defaults of [client.apiVersion], [client.endpoint]
    and [client.token]. *)
Definition initial_apiVersion (config : obj) : value :=
  or_else (get "apiVersion" config) (VStr "v1").

Definition initial_endpoint (config : obj) (env : Environment) : value :=
  or_else (or_else (get "endpoint" config) (env_value (VAULT_ADDR env)))
    (VStr "http://127.0.0.1:8200").

Definition initial_token (config : obj) (env : Environment) : value :=
  or_else (get "token" config) (env_value (VAULT_TOKEN env)).

(** What a property of the [client] object holds: a configuration value,
    one of the functions of lines 27-198, or the function that
    [generateFunction] installs for a command. *)
Inductive Member : Type :=
| Field (v : value)
| HandleVaultResponse
| Request
| Help
| Write
| Read
| List
| Delete
| GenerateFunction
| Generated (conf : Command).

(** [o[name]] and [o[name] = x] on an object whose properties are of
    type [A]. *)
Fixpoint pick {A} (name : string) (o : list (string * A)) : option A :=
  match o with
  | [] => None
  | (k, x) :: rest => if String.eqb k name then Some x else pick name rest
  end.

Fixpoint put {A} (name : string) (x : A) (o : list (string * A)) : list (string * A) :=
  match o with
  | [] => [(name, x)]
  | (k, y) :: rest =>
      if String.eqb k name then (name, x) :: rest else (k, y) :: put name x rest
  end.

(** The [client] object before the command table is installed: the
    assignments of lines 47-198, in their order. *)
Definition facade (config : obj) (env : Environment) : list (string * Member) :=
  put "generateFunction" GenerateFunction
    (put "delete" Delete
       (put "list" List
          (put "read" Read
             (put "write" Write
                (put "help" Help
                   (put "request" Request
                      (put "token" (Field (initial_token config env))
                         (put "endpoint" (Field (initial_endpoint config env))
                            (put "apiVersion" (Field (initial_apiVersion config))
                               (put "handleVaultResponse" HandleVaultResponse
                                  [])))))))))).

(** [assignFunctions(commandName)]: [generateFunction(commandName,
    commands[commandName])], which assigns [client[commandName]]. *)
Definition assignFunctions (commands : list (string * Command))
  (client : list (string * Member)) (commandName : string) : list (string * Member) :=
  match pick commandName commands with
  | Some conf => put commandName (Generated conf) client
  | None => client
  end.

(** Lines 203-208: [Object.keys(commands).forEach(assignFunctions)], and
    the client that [module.exports] returns. *)
Definition new_client (config : obj) (env : Environment)
  (commands : list (string * Command)) : list (string * Member) :=
  fold_left (assignFunctions commands) (map fst commands) (facade config env).

(** The names that the client object has before the commands are
    installed. *)
Definition facade_names : list string :=
  ["handleVaultResponse"; "apiVersion"; "endpoint"; "token"; "request"; "help";
   "write"; "read"; "list"; "delete"; "generateFunction"].

(** ** Sample values for the further properties *)

Definition failing_transport (reason : value) (options : obj)
  : Completion (option Response) :=
  Rejected (TransportError reason).

(** A configuration whose templating engine throws on every template. *)
Definition throwing_renderer : Config :=
  mkConfig Tv4.validate (fun _ _ => None) (answering 200 VNull) VUndefined.

Definition plain_command : Command := mkCommand "GET" "/sys/status" VUndefined.

Definition schema_only_command : Command :=
  mkCommand "GET" "/sys/status" (VObj [("req", VObj [("type", VStr "object")])]).

Definition both_schemas_command : Command :=
  mkCommand "PUT" "/secret/{{name}}"
    (VObj [("req", VObj [("type", VStr "object"); ("required", VArr [VStr "value"])]);
           ("query", VObj [("type", VStr "object");
                           ("properties", VObj [("cas", VObj [])])])]).

Definition no_properties_command : Command :=
  mkCommand "GET" "/secret/{{name}}" (VObj [("query", VObj [("type", VStr "object")])]).

Definition read_app_options : obj :=
  [("path", VStr "/secret/app"); ("method", VStr "GET")].


Definition overriding_args : obj :=
  [("name", VStr "app"); ("list", VBool true);
   ("requestOptions", VObj [("method", VStr "DELETE"); ("path", VStr "/sys/seal")])].

Definition config_with_timeout : Config :=
  mkConfig Tv4.validate Mustache.render (answering 200 VNull)
    (VObj [("timeout", VNum 1000); ("proxy", VStr "http://proxy:3128")]).

Definition sample_commands : list (string * Command) :=
  [("status", plain_command); ("read", list_command)].

(** * Properties *)

(** ** The definitions on sample values *)

Example to_string_status : to_string (VNum 500) = "500".
Proof. reflexivity. Qed.

Example to_string_zero_and_negative :
  to_string (VNum 0) = "0" /\ to_string (VNum (-12)) = "-12".
Proof. split; reflexivity. Qed.

Example to_string_large :
  to_string (VNum (10 ^ 21)) = "1e+21"
  /\ to_string (VNum (2 ^ 53 + 1)) = "9007199254740992"
  /\ to_string (VNum (2 ^ 64)) = "18446744073709552000"
  /\ to_string (VNum 123456789012345678901234) = "1.2345678901234569e+23"
  /\ to_string (VNum (- 2 ^ 70)) = "-1.1805916207174113e+21"
  /\ to_string (VNum (2 ^ 1024)) = "Infinity".
Proof. vm_compute. repeat split. Qed.

Example encode_sample :
  encodeURIComponent (VStr "a b/c&d=e") = inr "a%20b%2Fc%26d%3De".
Proof. reflexivity. Qed.

Example encode_true : encodeURIComponent (VBool true) = inr "true".
Proof. reflexivity. Qed.

Example encode_unconvertible :
  encodeURIComponent (VArr [VNum 1; VObj [("toString", VNull)]]) = inl cannot_convert
  /\ encodeURIComponent (VArr [VNum 1; VObj [("valueOf", VNull)]])
     = inr "1%2C%5Bobject%20Object%5D".
Proof. split; reflexivity. Qed.

Example compare_with_zero :
  gt_zero (VStr "1") = inr true
  /\ gt_zero (VArr [VNum 5]) = inr true
  /\ gt_zero (VStr " 0x1F ") = inr true
  /\ gt_zero (VStr "1e-400") = inr false
  /\ gt_zero (VStr "one") = inr false
  /\ gt_zero (VArr [VNum 1; VNum 2]) = inr false
  /\ gt_zero (VArr []) = inr false
  /\ gt_zero (VObj []) = inr false
  /\ gt_zero (VObj [("toString", VNum 1)]) = inl cannot_convert.
Proof. vm_compute. repeat split. Qed.

Example in_sample :
  in_operator "toString" (VObj []) = Some true
  /\ in_operator "list" (VObj []) = Some false
  /\ in_operator "length" (VArr []) = Some true
  /\ in_operator "list" (VStr "list") = None
  /\ to_text (member (VObj []) "toString")
     = inr "function toString() { [native code] }"
  /\ to_text (member (VObj [("toString", VNum 1)]) "toString") = inr "1".
Proof. vm_compute. repeat split. Qed.

Example to_string_array : to_string (VArr [VNum 1; VNull; VStr "x"]) = "1,,x".
Proof. reflexivity. Qed.

Example render_nested_path :
  Mustache.render "/secret/{{name}}" (VObj [("name", VStr "a/b/c")])
  = Some "/secret/a&#x2F;b&#x2F;c".
Proof. reflexivity. Qed.

Example render_absent_field :
  Mustache.render "/secret/{{ name }}/x" (VObj []) = Some "/secret//x".
Proof. reflexivity. Qed.

Example render_unclosed : Mustache.render "/secret/{{name" (VObj []) = None.
Proof. reflexivity. Qed.

Example render_no_tag_no_view : Mustache.render "/sys/health" VUndefined = Some "/sys/health".
Proof. reflexivity. Qed.

Example requestSchema_accepts :
  Tv4.validate (VObj [("path", VStr "/sys/health"); ("method", VStr "GET")])
    requestSchema = None.
Proof. reflexivity. Qed.

Example requestSchema_rejects_missing_method :
  Tv4.validate (VObj [("path", VStr "/sys/health")]) requestSchema
  = Some (Tv4.violation "" "Missing required property: method").
Proof. reflexivity. Qed.

Example requestSchema_rejects_numeric_path :
  Tv4.validate (VObj [("path", VNum 5); ("method", VStr "GET")]) requestSchema
  = Some (Tv4.violation "/path" "Invalid type: number").
Proof. reflexivity. Qed.

(** ** Text lemmas *)

Lemma prefix_app (p s : string) :
  String.prefix p s = true <-> exists t, s = p ++ t.
Proof.
  revert s; induction p as [|a p IH]; intros s.
  - split; [intros _; exists s; reflexivity | intros _; destruct s; reflexivity].
  - destruct s as [|b s]; simpl.
    + split; [discriminate | intros [t Ht]; discriminate].
    + destruct (ascii_dec a b) as [->|Hne].
      * rewrite IH. split; intros [t Ht]; exists t; [now rewrite Ht | now inversion Ht].
      * split; [discriminate | intros [t Ht]; inversion Ht; congruence].
Qed.

Lemma contains_cons (pat : string) (c : ascii) (s : string) :
  contains pat (String c s) = String.prefix pat (String c s) || contains pat s.
Proof. reflexivity. Qed.


(** ** The response normalizer *)

Lemma code_units_cons (c : ascii) (s : string) :
  exists first rest, code_units (String c s) = first :: rest.
Proof.
  cbn [code_units].
  destruct (byte c <? 192)%Z; [eauto|].
  destruct (byte c <? 224)%Z; [destruct s; eauto|].
  destruct (byte c <? 240)%Z; [destruct s as [|c2 [|c3 s]]; eauto|].
  destruct s as [|c2 [|c3 [|c4 s]]]; eauto.
Qed.

Lemma gt_zero_converts (v : value) :
  (convertible v = true -> exists b, gt_zero v = inr b)
  /\ (convertible v = false -> gt_zero v = inl cannot_convert).
Proof.
  destruct v as [| |b|z|s|l|o];
    try (split; [intros _; eexists; reflexivity | discriminate]);
    unfold gt_zero, to_text.
  - destruct (convertible (VArr l)); split; intros; eauto; discriminate.
  - destruct (convertible (VObj o)); split; intros; eauto; discriminate.
Qed.

Lemma falsy_has_no_errors (b : value) :
  truthy b = false -> prop b "errors" = VUndefined.
Proof.
  destruct b as [| |[]|z|s|l|o]; simpl; try reflexivity; try discriminate.
  destruct s; simpl; [reflexivity | discriminate].
Qed.

(** The message of lines 35-40 is the one specified, unless the
    comparison of line 36 throws. *)
Lemma message_of_errors (r : Response) :
  message_of r
  = if length_converts (prop (body r) "errors") then inr (failure_message r)
    else inl cannot_convert.
Proof.
  unfold message_of, failure_message. cbn [to_string].
  destruct (truthy (body r)) eqn:Hb;
    [|rewrite (falsy_has_no_errors _ Hb); reflexivity].
  cbn [andb].
  destruct (prop (body r) "errors") as [| |[]|z|s|l|o]; try reflexivity.
  - simpl. destruct (z =? 0)%Z; reflexivity.
  - destruct s as [|c s]; [reflexivity|].
    destruct (code_units_cons c s) as (first & rest & E).
    cbn [truthy String.eqb negb length_converts first_entry].
    unfold prop. cbn [String.eqb Ascii.eqb Bool.eqb]. rewrite E.
    cbn [gt_zero List.length].
    replace (0 <? Z.of_nat (S (List.length rest)))%Z with true
      by (symmetry; apply Z.ltb_lt; lia).
    reflexivity.
  - destruct l as [|first rest]; [reflexivity|].
    cbn [truthy length_converts first_entry].
    unfold prop. cbn [String.eqb Ascii.eqb Bool.eqb].
    cbn [gt_zero List.length].
    replace (0 <? Z.of_nat (S (List.length rest)))%Z with true
      by (symmetry; apply Z.ltb_lt; lia).
    reflexivity.
  - cbn [truthy length_converts first_entry prop].
    destruct (gt_zero_converts (get "length" o)) as [Hc Hn].
    destruct (convertible (get "length" o)).
    + destruct (Hc eq_refl) as [[] ->]; reflexivity.
    + rewrite (Hn eq_refl). reflexivity.
Qed.

Lemma handle_success (r : Response) :
  (statusCode r = 200 \/ statusCode r = 204)%Z ->
  handleVaultResponse (Some r) = Resolved (body r).
Proof.
  intros [H|H]; unfold handleVaultResponse; rewrite H; reflexivity.
Qed.

Lemma handle_other_status (r : Response) :
  statusCode r <> 200%Z -> statusCode r <> 204%Z ->
  handleVaultResponse (Some r)
  = match request_path r with
    | None => Threw (TypeError "Cannot read property 'path' of undefined")
    | Some p =>
        if matches_sys_health p then Resolved (body r)
        else if length_converts (prop (body r) "errors") then
          match new_Error (failure_message r) with
          | inl e => Threw e
          | inr error => Rejected error
          end
        else Threw cannot_convert
    end.
Proof.
  intros H1 H2. unfold handleVaultResponse.
  apply Z.eqb_neq in H1, H2. rewrite H1, H2. cbn [negb andb].
  destruct (request_path r) as [p|]; [|reflexivity].
  destruct (matches_sys_health p); [reflexivity|].
  rewrite message_of_errors.
  destruct (length_converts (prop (body r) "errors")); reflexivity.
Qed.

(** C3, as amended: for a response whose request path does not match the
    health-check pattern, the normalizer resolves, with the body, exactly
    when the status code is 200 or 204.  For any other status code it
    rejects with an error whose message is the text of the first entry of
    [body.errors] when there is one, and the text "Status <code>"
    otherwise; but when that entry, or the length that an object
    [body.errors] gives itself, does not convert to a text, it throws the
    [TypeError] of the conversion. *)
Theorem normalizer_follows_status (r : Response) (p : string) :
  request_path r = Some p ->
  matches_sys_health p = false ->
  (forall b, handleVaultResponse (Some r) = Resolved b
             <-> (statusCode r = 200 \/ statusCode r = 204)%Z /\ b = body r)
  /\ (statusCode r <> 200%Z -> statusCode r <> 204%Z ->
      (length_converts (prop (body r) "errors") = true ->
       (forall m, failure_message r = VStr m ->
                  handleVaultResponse (Some r) = Rejected (Error m))
       /\ (first_entry (prop (body r) "errors") = None ->
           handleVaultResponse (Some r)
           = Rejected (Error ("Status " ++ Z_to_string (statusCode r))))
       /\ (forall error, new_Error (failure_message r) = inr error ->
                         handleVaultResponse (Some r) = Rejected error)
       /\ (forall e, new_Error (failure_message r) = inl e ->
                     handleVaultResponse (Some r) = Threw e))
      /\ (length_converts (prop (body r) "errors") = false ->
          handleVaultResponse (Some r) = Threw cannot_convert)).
Proof.
  intros Hpath Hhealth. split.
  - intros b. split.
    + intros H.
      destruct (Z.eq_dec (statusCode r) 200) as [E1|N1];
        [rewrite handle_success in H by auto; inversion H; auto|].
      destruct (Z.eq_dec (statusCode r) 204) as [E2|N2];
        [rewrite handle_success in H by auto; inversion H; auto|].
      rewrite handle_other_status, Hpath, Hhealth in H by assumption.
      destruct (length_converts _); [|discriminate].
      destruct (new_Error _); discriminate.
    + intros [Hs ->]. apply handle_success, Hs.
  - intros N1 N2.
    rewrite handle_other_status, Hpath, Hhealth by assumption.
    split; intros Hc; rewrite Hc; [|reflexivity].
    repeat split.
    + intros m ->. reflexivity.
    + unfold failure_message. intros ->. reflexivity.
    + intros error ->. reflexivity.
    + intros e ->. reflexivity.
Qed.

Lemma normalizer_follows_status_witness :
  handleVaultResponse (Some counted_errors) = Rejected (Error "permission denied").
Proof.
  apply (proj1 (proj2 (normalizer_follows_status counted_errors "/v1/secret/app"
                         eq_refl eq_refl)
                  ltac:(discriminate) ltac:(discriminate)));
    reflexivity.
Defined.

(** C3 as stated fails: the first entry of [body.errors] is there, and
    the normalizer does not reject with it, it throws. *)
Lemma unconvertible_error_is_thrown :
  request_path opaque_error = Some "/v1/secret/app"
  /\ matches_sys_health "/v1/secret/app" = false
  /\ statusCode opaque_error = 500%Z
  /\ first_entry (prop (body opaque_error) "errors")
     = Some (VObj [("toString", VNum 1)])
  /\ handleVaultResponse (Some opaque_error) = Threw cannot_convert
  /\ (forall e, handleVaultResponse (Some opaque_error) <> Rejected e).
Proof. repeat split. intros e. discriminate. Qed.

Example status_500_empty_body :
  handleVaultResponse (Some (mkResponse 500 VUndefined (Some "/v1/secret/x")))
  = Rejected (Error "Status 500").
Proof. reflexivity. Qed.

Example status_404_first_error :
  handleVaultResponse (Some not_found) = Rejected (Error "no such path").
Proof. reflexivity. Qed.

Example status_200_body :
  handleVaultResponse
    (Some (mkResponse 200 (VObj [("data", VObj [("k", VNum 1)])]) (Some "/v1/secret/x")))
  = Resolved (VObj [("data", VObj [("k", VNum 1)])]).
Proof. reflexivity. Qed.

Example response_without_request :
  handleVaultResponse (Some (mkResponse 500 (VObj []) None))
  = Threw (TypeError "Cannot read property 'path' of undefined")
  /\ handleVaultResponse (Some (mkResponse 204 VUndefined None)) = Resolved VUndefined.
Proof. split; reflexivity. Qed.

Lemma handle_health_path (r : Response) (p : string) :
  request_path r = Some p ->
  matches_sys_health p = true ->
  handleVaultResponse (Some r) = Resolved (body r).
Proof.
  intros Hpath Hhealth.
  destruct (Z.eq_dec (statusCode r) 200) as [E1|N1]; [apply handle_success; auto|].
  destruct (Z.eq_dec (statusCode r) 204) as [E2|N2]; [apply handle_success; auto|].
  rewrite handle_other_status, Hpath, Hhealth by assumption. reflexivity.
Qed.

(** C4: for a response whose request path matches the health-check
    pattern, the normalizer resolves with the body whatever the status
    code; it never rejects. *)
Theorem health_path_always_resolves (r : Response) (p : string) :
  request_path r = Some p ->
  matches_sys_health p = true ->
  handleVaultResponse (Some r) = Resolved (body r)
  /\ (forall e, handleVaultResponse (Some r) <> Rejected e).
Proof.
  intros Hpath Hhealth. rewrite (handle_health_path r p Hpath Hhealth).
  split; [reflexivity|]. intros e. discriminate.
Qed.

Lemma health_path_always_resolves_witness :
  handleVaultResponse (Some sealed) = Resolved (VObj [("sealed", VBool true)]).
Proof.
  apply (proj1 (health_path_always_resolves sealed "/v1/sys/health" eq_refl eq_refl)).
Defined.



(** ** Objects *)

Lemma lookup_set_same (k : string) (v : value) (o : obj) :
  lookup k (set k v o) = Some v.
Proof.
  induction o as [|[k' v'] o IH]; simpl.
  - now rewrite String.eqb_refl.
  - destruct (String.eqb k' k) eqn:E; simpl.
    + now rewrite String.eqb_refl.
    + now rewrite E.
Qed.

Lemma lookup_set_other (k k' : string) (v : value) (o : obj) :
  k <> k' -> lookup k (set k' v o) = lookup k o.
Proof.
  intros Hne. induction o as [|[k0 v0] o IH]; simpl.
  - destruct (String.eqb_spec k' k); [congruence | reflexivity].
  - destruct (String.eqb_spec k0 k') as [->|N]; simpl.
    + destruct (String.eqb_spec k' k); [congruence | reflexivity].
    + now rewrite IH.
Qed.

Lemma get_set_same (k : string) (v : value) (o : obj) : get k (set k v o) = v.
Proof. unfold get. now rewrite lookup_set_same. Qed.

Lemma get_set_other (k k' : string) (v : value) (o : obj) :
  k <> k' -> get k (set k' v o) = get k o.
Proof. intros H. unfold get. now rewrite lookup_set_other. Qed.

Lemma assign_prop_reads_back (receiver : value) (name : string) (v r : value) :
  assign_prop receiver name v = Some r -> prop r name = v.
Proof.
  destruct receiver; simpl; try discriminate; intros H; inversion H; subst;
    simpl; apply get_set_same.
Qed.

(** ** The request executor *)

(** The test of line 79 holds for every token: a value differs from
    [undefined] or from [null]. *)
Lemma token_test_always (t : value) : token_test t = true.
Proof. destruct t; reflexivity. Qed.

Lemma write_at_other (place : list string) (v : value) (o : obj) (k : string) :
  hd_error place <> Some k -> get k (write_at place v o) = get k o.
Proof.
  destruct place as [|k1 rest]; [reflexivity|].
  intros Hk. assert (Hne : k <> k1) by (intros ->; now apply Hk).
  cbn [write_at]. destruct rest as [|k2 rest].
  - now apply get_set_other.
  - destruct (lookup k1 o) as [[]|]; try reflexivity. now apply get_set_other.
Qed.

Lemma write_through_other
  (places : list (list string)) (given v : value) (o : obj) (k : string) :
  (forall place, In place places -> hd_error place <> Some k) ->
  get k (write_through places given v o) = get k o.
Proof.
  unfold write_through. revert o.
  induction places as [|place places IH]; intros o Hk; [reflexivity|].
  cbn [fold_left]. rewrite IH by (intros q Hq; apply Hk; now right).
  destruct (truthy given); [|reflexivity].
  apply write_at_other, Hk. now left.
Qed.

Lemma request_with_trace
  (cfg : Config) (client : Client) (places : list (list string)) (options : obj) :
  fst (request_with cfg client places options)
  = (Validated (VObj options) requestSchema
     :: match outgoing_with cfg client places options with
        | Some o => [Sent o]
        | None => []
        end)%list.
Proof.
  unfold request_with, outgoing_with, headers_or_empty.
  destruct (tv4_validate cfg (VObj options) requestSchema); [reflexivity|].
  destruct (request_uri cfg client options) as [uri|]; [|reflexivity].
  rewrite token_test_always.
  destruct (assign_prop _ "X-Vault-Token" (token client)) as [h|]; [|reflexivity].
  unfold then_, send. destruct (rp cfg _); reflexivity.
Qed.

Lemma request_with_outcome_sent
  (cfg : Config) (client : Client) (places : list (list string)) (options o : obj) :
  outgoing_with cfg client places options = Some o ->
  request_with cfg client places options
  = ([Validated (VObj options) requestSchema; Sent o], settle (rp cfg o)).
Proof.
  unfold request_with, outgoing_with, headers_or_empty.
  destruct (tv4_validate cfg (VObj options) requestSchema); [discriminate|].
  destruct (request_uri cfg client options) as [uri|]; [|discriminate].
  rewrite token_test_always.
  destruct (assign_prop _ "X-Vault-Token" (token client)) as [h|]; [|discriminate].
  intros H; inversion H; subst. unfold then_, send, settle.
  destruct (rp cfg _); reflexivity.
Qed.

Lemma request_with_requests
  (cfg : Config) (client : Client) (places : list (list string)) (options : obj) :
  requests_of (fst (request_with cfg client places options))
  = match outgoing_with cfg client places options with
    | Some o => [o]
    | None => []
    end.
Proof.
  rewrite request_with_trace. simpl.
  destruct (outgoing_with cfg client places options); reflexivity.
Qed.

Lemma outgoing_with_fields
  (cfg : Config) (client : Client) (places : list (list string)) (options o : obj) :
  outgoing_with cfg client places options = Some o ->
  (exists uri, request_uri cfg client options = Some uri /\ get "uri" o = VStr uri)
  /\ (exists headers,
        assign_prop (headers_or_empty options) "X-Vault-Token" (token client)
        = Some headers
        /\ o = set "uri" (get "uri" o)
                 (write_through places (get "headers" options) headers
                    (set "headers" headers options)))
  /\ (forall k, k <> "uri" ->
                (forall place, In place places -> hd_error place <> Some k) ->
                get k o = get k (set "headers"
                                   (match assign_prop (headers_or_empty options)
                                            "X-Vault-Token" (token client) with
                                    | Some headers => headers
                                    | None => VUndefined
                                    end) options)).
Proof.
  unfold outgoing_with.
  destruct (tv4_validate cfg (VObj options) requestSchema); [discriminate|].
  destruct (request_uri cfg client options) as [uri|]; [|discriminate].
  destruct (assign_prop _ "X-Vault-Token" (token client)) as [h|] eqn:Eh;
    [|discriminate].
  intros H; inversion H; subst; clear H.
  split; [|split].
  - exists uri. split; [reflexivity | apply get_set_same].
  - exists h. split; [reflexivity|]. now rewrite get_set_same.
  - intros k Hu Hk. rewrite get_set_other by exact Hu.
    now apply write_through_other.
Qed.

Lemma request_trace (cfg : Config) (client : Client) (options : obj) :
  fst (request cfg client options)
  = (Validated (VObj options) requestSchema
     :: match outgoing cfg client options with
        | Some o => [Sent o]
        | None => []
        end)%list.
Proof. exact (request_with_trace cfg client [] options). Qed.

Lemma request_outcome_sent (cfg : Config) (client : Client) (options o : obj) :
  outgoing cfg client options = Some o ->
  request cfg client options
  = ([Validated (VObj options) requestSchema; Sent o], settle (rp cfg o)).
Proof. exact (request_with_outcome_sent cfg client [] options o). Qed.

Lemma request_requests (cfg : Config) (client : Client) (options : obj) :
  requests_of (fst (request cfg client options))
  = match outgoing cfg client options with
    | Some o => [o]
    | None => []
    end.
Proof. exact (request_with_requests cfg client [] options). Qed.

Lemma outgoing_fields (cfg : Config) (client : Client) (options o : obj) :
  outgoing cfg client options = Some o ->
  prop (get "headers" o) "X-Vault-Token" = token client
  /\ get "json" o = get "json" options
  /\ get "path" o = get "path" options
  /\ get "method" o = get "method" options
  /\ (exists uri, request_uri cfg client options = Some uri /\ get "uri" o = VStr uri).
Proof.
  intros H.
  destruct (outgoing_with_fields cfg client [] options o H)
    as (Huri & (h & Eh & _) & Hk).
  assert (Hno : forall k : string,
            forall place : list string, In place [] -> hd_error place <> Some k)
    by (intros k place []).
  repeat split.
  - rewrite Hk by (discriminate || apply Hno). rewrite Eh, get_set_same.
    eapply assign_prop_reads_back, Eh.
  - rewrite Hk by (discriminate || apply Hno). now apply get_set_other.
  - rewrite Hk by (discriminate || apply Hno). now apply get_set_other.
  - rewrite Hk by (discriminate || apply Hno). now apply get_set_other.
  - exact Huri.
Qed.

(** *** The token header *)

Lemma sent_header_is_token (cfg : Config) (client : Client) (options o : obj) :
  In o (requests_of (fst (request cfg client options))) ->
  prop (get "headers" o) "X-Vault-Token" = token client.
Proof.
  rewrite request_requests.
  destruct (outgoing cfg client options) as [o'|] eqn:E; [|intros []].
  intros [<-|[]]. apply (outgoing_fields _ _ _ _ E).
Qed.

(** C1, as amended: when a non-empty token is configured, every request
    that [client.request] sends carries that token in its X-Vault-Token
    header, whether or not the caller had set that header. *)
Theorem configured_token_is_sent
  (cfg : Config) (client : Client) (options o : obj) (t : string) :
  token client = VStr t -> t <> "" ->
  In o (requests_of (fst (request cfg client options))) ->
  prop (get "headers" o) "X-Vault-Token" = VStr t.
Proof.
  intros Ht _ Hin. rewrite <- Ht. eapply sent_header_is_token, Hin.
Qed.

Lemma configured_token_is_sent_witness :
  prop (get "headers"
          (sent_by (reference_config (answering 200 VNull))
             (local_client (VStr "s.client")) read_with_own_token))
    "X-Vault-Token"
  = VStr "s.client".
Proof.
  apply (configured_token_is_sent (reference_config (answering 200 VNull))
           (local_client (VStr "s.client")) read_with_own_token _ "s.client").
  - reflexivity.
  - discriminate.
  - vm_compute. left. reflexivity.
Defined.

(** C1 as stated fails: a header that the caller set is replaced by the
    client's token. *)
Lemma caller_header_is_replaced :
  ~ token_header_as_specified (reference_config (answering 200 VNull))
      (local_client (VStr "s.client")) read_with_own_token.
Proof.
  intros H.
  specialize (H (sent_by (reference_config (answering 200 VNull))
                   (local_client (VStr "s.client")) read_with_own_token)).
  vm_compute in H. specialize (H (or_introl eq_refl)). discriminate.
Qed.

(** What line 79 lets through: an empty token is attached as well. *)
Example empty_token_is_attached :
  lookup "X-Vault-Token"
    (own_props
       (get "headers"
          (sent_by (reference_config (answering 200 VNull)) (local_client (VStr ""))
             [("path", VStr "/secret/app"); ("method", VStr "GET")])))
  = Some (VStr "").
Proof. reflexivity. Qed.

(** ** Traces of composed calls *)

Lemma requests_of_app (t t' : list Event) :
  requests_of (t ++ t') = (requests_of t ++ requests_of t')%list.
Proof. apply flat_map_app. Qed.

Lemma requests_of_then {A B} (p : Call A) (f : A -> Call B) :
  requests_of (fst (then_ p f))
  = (requests_of (fst p)
     ++ match snd p with
        | Resolved a => requests_of (fst (f a))
        | _ => []
        end)%list.
Proof.
  destruct p as [t [a|e|e]]; simpl; try now rewrite app_nil_r.
  destruct (f a) as [t' c]. simpl. apply requests_of_app.
Qed.

Lemma snd_then {A B} (p : Call A) (f : A -> Call B) :
  snd (then_ p f)
  = match snd p with
    | Resolved a => caught (snd (f a))
    | Rejected e => Rejected e
    | Threw e => Threw e
    end.
Proof. destruct p as [t [a|e|e]]; simpl; try reflexivity. now destruct (f a). Qed.

Lemma validate_sends_nothing (cfg : Config) (json schema : value) :
  requests_of (fst (validate cfg json schema)) = [].
Proof.
  unfold validate. destruct (strict_eq schema VUndefined); [reflexivity|].
  destruct (tv4_validate cfg json schema); reflexivity.
Qed.

Lemma validate_outcome (cfg : Config) (json schema : value) :
  snd (validate cfg json schema)
  = if strict_eq schema VUndefined then Resolved tt
    else match tv4_validate cfg json schema with
         | Some err => Rejected (ValidationError err)
         | None => Resolved tt
         end.
Proof.
  unfold validate. destruct (strict_eq schema VUndefined); [reflexivity|].
  destruct (tv4_validate cfg json schema); reflexivity.
Qed.

(** ** Query extension *)


Lemma in_object (key : string) (payload : obj) :
  in_operator key (VObj payload)
  = Some (has key payload || has key object_prototype).
Proof.
  unfold in_operator, owns. cbn [own_props inherited]. now rewrite orb_false_r.
Qed.



Lemma extendOptions_sends_nothing (conf : Command) (options : obj) :
  fst (extendOptions conf options) = [].
Proof.
  unfold extendOptions. destruct (nullish (schema conf)); [reflexivity|].
  destruct (negb (truthy (prop (schema conf) "query"))); [reflexivity|].
  destruct (object_keys _); [|reflexivity].
  destruct (push_params _ _ _) as [e|params]; [reflexivity|].
  destruct (0 <? List.length params)%nat; [|reflexivity].
  destruct (to_text _); reflexivity.
Qed.

Lemma extendOptions_keeps_fields (conf : Command) (options extended : obj) (k : string) :
  snd (extendOptions conf options) = Resolved extended ->
  k <> "path" -> get k extended = get k options.
Proof.
  unfold extendOptions. destruct (nullish (schema conf)); [discriminate|].
  destruct (negb (truthy (prop (schema conf) "query")));
    [simpl; intros H; inversion H; reflexivity|].
  destruct (object_keys _); [|discriminate].
  destruct (push_params _ _ _) as [e|params]; [discriminate|].
  destruct (0 <? List.length params)%nat.
  - destruct (to_text _) as [e|p]; [discriminate|].
    simpl. intros H Hk. inversion H; subst. now apply get_set_other.
  - simpl. intros H Hk. inversion H; subst. reflexivity.
Qed.




Example no_declared_key_no_query :
  extendOptions list_command (list_options [("name", VStr "app")])
  = resolve (list_options [("name", VStr "app")]).
Proof. reflexivity. Qed.

Example own_key_hides_inherited :
  extendOptions inherited_key_command (list_options [("toString", VStr "a b")])
  = resolve
      [("method", VStr "GET"); ("path", VStr "/secret/{{name}}?toString=a%20b");
       ("json", VObj [("toString", VStr "a b")])].
Proof. reflexivity. Qed.

Lemma append_empty (s : string) : s ++ "" = s.
Proof. induction s as [|c s IH]; [reflexivity | simpl; now rewrite IH]. Qed.

Lemma extendOptions_path (conf : Command) (options extended : obj) (p : string) :
  snd (extendOptions conf options) = Resolved extended ->
  get "path" options = VStr p ->
  exists query, get "path" extended = VStr (p ++ query).
Proof.
  unfold extendOptions. destruct (nullish (schema conf)); [discriminate|].
  destruct (negb (truthy (prop (schema conf) "query"))).
  - intros H Hp. inversion H; subst. exists "". now rewrite append_empty.
  - destruct (object_keys _); [|discriminate].
    destruct (push_params _ _ _) as [e|params]; [discriminate|].
    intros H Hp. rewrite Hp in H.
    destruct (0 <? List.length params)%nat.
    + cbn in H. inversion H; subst. rewrite get_set_same. eauto.
    + inversion H; subst. exists "". now rewrite append_empty.
Qed.

(** ** Generated operations *)

Lemma operation_options_json (cfg : Config) (conf : Command) (args : obj) :
  get "json" (operation_options cfg conf args) = VObj args.
Proof. apply get_set_same. Qed.

Lemma generated_without_schema (cfg : Config) (client : Client) (conf : Command) (args : obj) :
  truthy (schema conf) = false ->
  generateFunction cfg client conf args
  = request_with cfg client (shared_headers args) (operation_options cfg conf args).
Proof. intros H. unfold generateFunction. now rewrite H. Qed.

Lemma generated_with_schema (cfg : Config) (client : Client) (conf : Command) (args : obj) :
  truthy (schema conf) = true ->
  generateFunction cfg client conf args
  = then_
      (then_
         (then_promise
            (validate cfg (VObj args) (prop (schema conf) "req"))
            (validate cfg (VObj args) (prop (schema conf) "query")))
         (fun _ => extendOptions conf (operation_options cfg conf args)))
      (fun extendedOptions =>
         request_with cfg client (shared_headers args) extendedOptions).
Proof.
  intros H. unfold generateFunction. rewrite H. simpl negb. cbv iota.
  fold (operation_options cfg conf args). now rewrite operation_options_json.
Qed.

(** The requests of a generated operation are those of [client.request]
    on the extended options; the outcome of the query validation plays
    no part. *)
Lemma generated_requests (cfg : Config) (client : Client) (conf : Command) (args : obj) :
  truthy (schema conf) = true ->
  requests_of (fst (generateFunction cfg client conf args))
  = match snd (validate cfg (VObj args) (prop (schema conf) "req")),
          snd (extendOptions conf (operation_options cfg conf args)) with
    | Resolved _, Resolved extended =>
        requests_of (fst (request_with cfg client (shared_headers args) extended))
    | _, _ => []
    end.
Proof.
  intros H. rewrite generated_with_schema by exact H.
  rewrite requests_of_then, snd_then, requests_of_then.
  unfold then_promise. cbn [fst snd].
  rewrite requests_of_app, !validate_sends_nothing.
  destruct (snd (validate cfg (VObj args) (prop (schema conf) "req"))); try reflexivity.
  rewrite extendOptions_sends_nothing.
  destruct (snd (extendOptions conf (operation_options cfg conf args)));
    reflexivity.
Qed.

(** The request of a generated operation is the one that
    [client.request] sends for options that agree with the operation's
    own on everything but the path. *)
Lemma generated_request_sent
  (cfg : Config) (client : Client) (conf : Command) (args o : obj) :
  In o (requests_of (fst (generateFunction cfg client conf args))) ->
  exists extended,
    outgoing_with cfg client (shared_headers args) extended = Some o
    /\ (forall k, k <> "path" ->
                  get k extended = get k (operation_options cfg conf args))
    /\ (exists query, get "path" extended = VStr (path conf ++ query)).
Proof.
  intros Hin. destruct (truthy (schema conf)) eqn:Hs.
  - rewrite generated_requests in Hin by exact Hs.
    destruct (snd (validate _ _ _)); try contradiction.
    destruct (snd (extendOptions _ _)) as [extended| |] eqn:Hext; try contradiction.
    rewrite request_with_requests in Hin.
    destruct (outgoing_with cfg client _ extended) as [o'|] eqn:Ho; [|contradiction].
    destruct Hin as [<-|[]]. exists extended. split; [exact Ho|]. split.
    + intros k Hk. now apply (extendOptions_keeps_fields _ _ _ k Hext).
    + apply (extendOptions_path conf _ _ (path conf) Hext).
      unfold operation_options. rewrite get_set_other by discriminate.
      apply get_set_same.
  - rewrite generated_without_schema, request_with_requests in Hin by exact Hs.
    destruct (outgoing_with _ _ _ _) as [o'|] eqn:Ho; [|contradiction].
    destruct Hin as [<-|[]]. exists (operation_options cfg conf args).
    split; [exact Ho|]. split; [reflexivity|].
    exists "". rewrite append_empty. unfold operation_options.
    rewrite get_set_other by discriminate. apply get_set_same.
Qed.

Lemma shared_headers_apart (args : obj) (k : string) :
  k <> "json" ->
  forall place, In place (shared_headers args) -> hd_error place <> Some k.
Proof.
  intros Hk place. unfold shared_headers.
  destruct (get "requestOptions" args) as [| | | | | |ro]; try (intros []).
  destruct (has "headers" ro); [|intros []].
  intros [<-|[]]. cbn. congruence.
Qed.

Lemma get_is_lookup (k : string) (o : obj) (inner : obj) :
  get k o = VObj inner -> lookup k o = Some (VObj inner).
Proof. unfold get. destruct (lookup k o); [congruence | discriminate]. Qed.

Lemma keys_set_present (k : string) (v x : value) (o : obj) :
  lookup k o = Some x -> keys (set k v o) = keys o.
Proof.
  induction o as [|[k' v'] o IH]; [discriminate|].
  cbn [lookup set]. destruct (String.eqb_spec k' k) as [->|Hne].
  - reflexivity.
  - intros H. cbn [keys map fst]. f_equal. apply IH, H.
Qed.

(** C10, as amended: a generated operation sends the [args] object as the
    JSON body with every field kept, the fields used for the path
    template or the query string and [args.requestOptions] included.
    The body is [args] as the caller passed it, except when
    [args.requestOptions] has a [headers] of its own that the request
    takes for its headers: that object is the one the token is written
    into, and the body holds it with the headers that are sent. *)
Theorem generated_body_is_whole_args
  (cfg : Config) (client : Client) (conf : Command) (args o : obj) :
  In o (requests_of (fst (generateFunction cfg client conf args))) ->
  exists sent,
    get "json" o = VObj sent
    /\ keys sent = keys args
    /\ (forall field, field <> "requestOptions" -> get field sent = get field args)
    /\ ((forall request_options,
           get "requestOptions" args = VObj request_options ->
           has "headers" request_options = false) ->
        sent = args)
    /\ (truthy (get "headers" (operation_options cfg conf args)) = false -> sent = args)
    /\ (forall request_options,
          get "requestOptions" args = VObj request_options ->
          has "headers" request_options = true ->
          truthy (get "headers" (operation_options cfg conf args)) = true ->
          sent = set "requestOptions"
                   (VObj (set "headers" (get "headers" o) request_options)) args
          /\ prop (get "headers" o) "X-Vault-Token" = token client).
Proof.
  intros Hin.
  destruct (generated_request_sent cfg client conf args o Hin)
    as (extended & Ho & Hsame & _).
  destruct (outgoing_with_fields cfg client _ extended o Ho)
    as (_ & (h & Eh & Eo) & Hk).
  assert (Hheaders : get "headers" o = h).
  { rewrite Hk by (discriminate || apply shared_headers_apart; discriminate).
    rewrite Eh. apply get_set_same. }
  assert (Hjson : get "json" extended = VObj args).
  { rewrite Hsame by discriminate. apply operation_options_json. }
  assert (Hgiven : get "headers" extended
                   = get "headers" (operation_options cfg conf args))
    by (apply Hsame; discriminate).
  assert (Hbody : get "json" o
                  = get "json" (write_through (shared_headers args)
                                  (get "headers" extended) h
                                  (set "headers" h extended))).
  { rewrite Eo at 1. now rewrite get_set_other by discriminate. }
  assert (Hplain : shared_headers args = [] \/ truthy (get "headers" extended) = false ->
                   get "json" o = VObj args).
  { intros Hcase. rewrite Hbody.
    assert (E : write_through (shared_headers args) (get "headers" extended) h
                  (set "headers" h extended)
                = set "headers" h extended).
    { unfold write_through. destruct Hcase as [->| ->]; [reflexivity|].
      generalize (set "headers" h extended) as acc.
      generalize (shared_headers args) as places.
      induction places as [|place places IH]; intros acc;
        [reflexivity | apply IH]. }
    rewrite E, get_set_other by discriminate. exact Hjson. }
  destruct (get "requestOptions" args) as [| | | | | |ro] eqn:Ero;
    try (exists args; rewrite Hplain by (left; unfold shared_headers; now rewrite Ero);
         split; [|split; [|split; [|split; [|split]]]]; try reflexivity;
         intros; discriminate).
  destruct (has "headers" ro) eqn:Hro.
  - destruct (truthy (get "headers" extended)) eqn:Ht.
    + exists (set "requestOptions" (VObj (set "headers" h ro)) args).
      assert (Hlro := get_is_lookup _ _ _ Ero).
      split; [|split; [|split; [|split; [|split]]]].
      * rewrite Hbody. unfold shared_headers, write_through. rewrite Ero, Hro.
        cbn [fold_left]. rewrite Ht. cbn [write_at].
        rewrite lookup_set_other by discriminate.
        rewrite (get_is_lookup _ _ _ Hjson), Hlro.
        apply get_set_same.
      * eapply keys_set_present, Hlro.
      * intros field Hf. now apply get_set_other.
      * intros Hnone. specialize (Hnone ro eq_refl). congruence.
      * rewrite <- Hgiven, Ht. discriminate.
      * intros ro' H _ _. injection H as <-. rewrite Hheaders.
        split; [reflexivity|]. eapply assign_prop_reads_back, Eh.
    + exists args. rewrite Hplain by now right.
      split; [|split; [|split; [|split; [|split]]]]; try reflexivity.
      rewrite <- Hgiven, Ht. discriminate.
  - exists args.
    rewrite Hplain by (left; unfold shared_headers; now rewrite Ero, Hro).
    split; [|split; [|split; [|split; [|split]]]]; try reflexivity.
    intros ro' H. inversion H; subst. congruence.
Qed.

Lemma generated_body_is_whole_args_witness :
  exists sent,
    get "json"
      (sent_by_operation (reference_config (answering 200 VNull))
         (local_client (VStr "s.client")) list_command traced_args)
    = VObj sent
    /\ keys sent = keys traced_args
    /\ get "name" sent = VStr "app"
    /\ get "requestOptions" sent
       = VObj [("headers", VObj [("X-Trace", VStr "1");
                                 ("X-Vault-Token", VStr "s.client")])].
Proof.
  destruct (generated_body_is_whole_args (reference_config (answering 200 VNull))
              (local_client (VStr "s.client")) list_command traced_args
              (sent_by_operation (reference_config (answering 200 VNull))
                 (local_client (VStr "s.client")) list_command traced_args)
              ltac:(vm_compute; left; reflexivity))
    as (sent & Hjson & Hkeys & Hfields & _ & _ & Hshared).
  exists sent. split; [exact Hjson|]. split; [exact Hkeys|]. split.
  - rewrite Hfields by discriminate. reflexivity.
  - destruct (Hshared [("headers", VObj [("X-Trace", VStr "1")])]
                eq_refl eq_refl eq_refl) as [-> _].
    reflexivity.
Defined.

(** C10 as stated fails: the body that is sent is not the [args] that the
    caller passed, it has the client's token in
    [requestOptions.headers]. *)
Lemma shared_headers_take_the_token :
  let o := sent_by_operation (reference_config (answering 200 VNull))
             (local_client (VStr "s.client")) list_command traced_args in
  requests_of (fst (generateFunction (reference_config (answering 200 VNull))
                      (local_client (VStr "s.client")) list_command traced_args))
  = [o]
  /\ get "json" o <> VObj traced_args
  /\ get "json" o
     = VObj [("name", VStr "app");
             ("requestOptions",
              VObj [("headers", VObj [("X-Trace", VStr "1");
                                      ("X-Vault-Token", VStr "s.client")])])].
Proof. vm_compute. repeat split. discriminate. Qed.

Example generated_uri_and_body :
  let o := sent_by_operation (reference_config (answering 200 VNull))
             (local_client (VStr "s.client")) list_command list_args in
  get "uri" o = VStr "http://127.0.0.1:8200/v1/secret/app?list=true"
  /\ get "timeout" o = VNum 500
  /\ get "json" o = VObj list_args.
Proof. repeat split. Qed.

(** *** Validation before the network *)

(** A payload that fails the request schema is rejected with the
    validation error, and nothing is sent. *)
Lemma request_schema_failure_aborts
  (cfg : Config) (client : Client) (conf : Command) (args : obj) (err : value) :
  truthy (schema conf) = true ->
  prop (schema conf) "req" <> VUndefined ->
  tv4_validate cfg (VObj args) (prop (schema conf) "req") = Some err ->
  snd (generateFunction cfg client conf args) = Rejected (ValidationError err)
  /\ requests_of (fst (generateFunction cfg client conf args)) = [].
Proof.
  intros Hs Hdef Hfail.
  assert (Hv : snd (validate cfg (VObj args) (prop (schema conf) "req"))
               = Rejected (ValidationError err)).
  { rewrite validate_outcome, Hfail.
    destruct (prop (schema conf) "req"); try reflexivity. congruence. }
  split.
  - rewrite generated_with_schema by exact Hs.
    rewrite !snd_then. unfold then_promise. cbn [snd]. now rewrite Hv.
  - rewrite generated_requests by exact Hs. now rewrite Hv.
Qed.

(** A payload that passes the request schema and fails the query schema
    goes on: the rejected promise of the second [validate] is handed to
    [then] as if it were a callback, and ignored. *)
Lemma query_schema_failure_is_ignored
  (cfg : Config) (client : Client) (conf : Command) (args : obj) :
  truthy (schema conf) = true ->
  snd (validate cfg (VObj args) (prop (schema conf) "req")) = Resolved tt ->
  snd (generateFunction cfg client conf args)
  = match snd (extendOptions conf (operation_options cfg conf args)) with
    | Resolved extended => caught (snd (request_with cfg client (shared_headers args) extended))
    | Rejected e | Threw e => Rejected e
    end
  /\ requests_of (fst (generateFunction cfg client conf args))
     = match snd (extendOptions conf (operation_options cfg conf args)) with
       | Resolved extended => requests_of (fst (request_with cfg client (shared_headers args) extended))
       | _ => []
       end.
Proof.
  intros Hs Hv. split.
  - rewrite generated_with_schema by exact Hs.
    rewrite !snd_then. unfold then_promise. cbn [snd]. rewrite Hv.
    destruct (snd (extendOptions _ _)); reflexivity.
  - rewrite generated_requests by exact Hs. now rewrite Hv.
Qed.

(** C2 at a payload that fails the query schema only: the second
    validation rejects, and the operation still sends its request and
    resolves with the server's answer. *)
Theorem query_schema_failure_reaches_network :
  let cfg := reference_config (answering 200 (VObj [("data", VNull)])) in
  let client := local_client (VStr "s.client") in
  snd (validate cfg (VObj ill_typed_args) (prop (schema strict_list_command) "query"))
  = Rejected (ValidationError (Tv4.violation "/list" "Invalid type: string"))
  /\ map (get "uri")
       (requests_of (fst (generateFunction cfg client strict_list_command ill_typed_args)))
     = [VStr "http://127.0.0.1:8200/v1/secret/app?list=yes"]
  /\ snd (generateFunction cfg client strict_list_command ill_typed_args)
     = Resolved (VObj [("data", VNull)]).
Proof. repeat split. Qed.

(** ** The generic verbs *)

Lemma request_with_validations
  (cfg : Config) (client : Client) (places : list (list string)) (options : obj) :
  validations_of (fst (request_with cfg client places options))
  = [(VObj options, requestSchema)].
Proof.
  rewrite request_with_trace. simpl.
  now destruct (outgoing_with cfg client places options).
Qed.

Lemma request_validations (cfg : Config) (client : Client) (options : obj) :
  validations_of (fst (request cfg client options)) = [(VObj options, requestSchema)].
Proof. exact (request_with_validations cfg client [] options). Qed.

Ltac verb_builds :=
  unfold performs; repeat split;
  [ repeat first [ apply get_set_same | rewrite get_set_other by discriminate ]
  | repeat first [ apply get_set_same | rewrite get_set_other by discriminate ]
  | apply request_validations ].

(** C7: the generic verbs build their requests with these methods and
    paths: [read] GET "/" + path; [write] PUT "/" + path with the data as
    the JSON body; [list] LIST; [delete] DELETE; [help] GET "/" + path +
    "?help=1"; the only validation any of them performs is that of the
    request options. *)
Theorem generic_verbs
  (cfg : Config) (client : Client) (p : string) (data request_options : value) :
  (exists o, performs cfg client (read cfg client p request_options) "GET" ("/" ++ p) o)
  /\ (exists o, performs cfg client (write cfg client p data request_options)
                  "PUT" ("/" ++ p) o
                /\ get "json" o = data)
  /\ (exists o, performs cfg client (list_ cfg client p request_options)
                  "LIST" ("/" ++ p) o)
  /\ (exists o, performs cfg client (delete cfg client p request_options)
                  "DELETE" ("/" ++ p) o)
  /\ (exists o, performs cfg client (help cfg client p request_options)
                  "GET" ("/" ++ p ++ "?help=1") o).
Proof.
  repeat split.
  - eexists. unfold read. verb_builds.
  - eexists. split; [unfold write; verb_builds|].
    rewrite get_set_other by discriminate. apply get_set_same.
  - eexists. unfold list_. verb_builds.
  - eexists. unfold delete. verb_builds.
  - eexists. unfold help. verb_builds.
Qed.

Example write_request :
  map (fun o => (get "method" o, get "uri" o, get "json" o))
    (requests_of
       (fst (write (reference_config (answering 204 VUndefined))
               (local_client (VStr "s.client")) "secret/app"
               (VObj [("value", VStr "x")]) VUndefined)))
  = [(VStr "PUT", VStr "http://127.0.0.1:8200/v1/secret/app",
      VObj [("value", VStr "x")])].
Proof. reflexivity. Qed.

(** ** Validation of the request options *)

(** What [requestSchema] asks of an options object. *)
Lemma requestSchema_verdict (options : obj) :
  Tv4.validate (VObj options) requestSchema = None
  <-> is_string (get "path" options) = true /\ is_string (get "method" options) = true.
Proof.
  unfold Tv4.validate, requestSchema. cbn -[get].
  destruct (get "path" options) as [| |b|z|s|l|o];
    destruct (get "method" options) as [| |b'|z'|s'|l'|o'];
    cbn; split; (intros [? ?] || intros ?); try discriminate; auto.
Qed.

(** C8: options that lack a string [path] or a string [method] are
    rejected by [client.request] with the validation error and no HTTP
    request is issued; the rejection is the one that [validate], the
    check of the operation schemas, gives for the same data and schema. *)
Theorem malformed_options_are_rejected
  (cfg : Config) (client : Client) (options : obj) :
  checks_request_options cfg ->
  is_string (get "path" options) = false \/ is_string (get "method" options) = false ->
  exists err,
    tv4_validate cfg (VObj options) requestSchema = Some err
    /\ request cfg client options
       = ([Validated (VObj options) requestSchema], Rejected (ValidationError err))
    /\ requests_of (fst (request cfg client options)) = []
    /\ validate cfg (VObj options) requestSchema
       = ([Validated (VObj options) requestSchema], Rejected (ValidationError err)).
Proof.
  intros Hcfg Hlack.
  destruct (tv4_validate cfg (VObj options) requestSchema) as [err|] eqn:E.
  - exists err. split; [reflexivity|].
    assert (R : request cfg client options
                = ([Validated (VObj options) requestSchema],
                   Rejected (ValidationError err))).
    { unfold request, request_with. now rewrite E. }
    rewrite R. repeat split.
    unfold validate. rewrite E. reflexivity.
  - exfalso. apply Hcfg, requestSchema_verdict in E. destruct E as [E1 E2].
    destruct Hlack; congruence.
Qed.

Lemma malformed_options_are_rejected_witness :
  exists err,
    request (reference_config (answering 200 VNull)) (local_client (VStr "s.client"))
      [("path", VStr "/secret/app"); ("method", VNum 7)]
    = ([Validated (VObj [("path", VStr "/secret/app"); ("method", VNum 7)]) requestSchema],
       Rejected (ValidationError err)).
Proof.
  destruct (malformed_options_are_rejected
              (reference_config (answering 200 VNull)) (local_client (VStr "s.client"))
              [("path", VStr "/secret/app"); ("method", VNum 7)])
    as (err & _ & R & _).
  - intros data. reflexivity.
  - right. reflexivity.
  - exists err. exact R.
Defined.

(** ** The URI *)

Lemma no_char_app (c : ascii) (s t : string) :
  no_char c (s ++ t) = no_char c s && no_char c t.
Proof. induction s as [|a s IH]; simpl; [reflexivity|]. now rewrite IH, andb_assoc. Qed.

Lemma append_assoc (s t u : string) : (s ++ t) ++ u = s ++ t ++ u.
Proof. induction s as [|a s IH]; simpl; [reflexivity | now rewrite IH]. Qed.

(** *** Replacing the encoded slashes *)

Lemma replace_other_char (c : ascii) (s : string) :
  Ascii.eqb c "&" = false ->
  replace_encoded_slashes (String c s) = String c (replace_encoded_slashes s).
Proof. intros H. simpl. now rewrite H. Qed.

Lemma replace_other_entity (s : string) :
  String.prefix "#x2F;" s = false ->
  replace_encoded_slashes (String "&" s) = String "&" (replace_encoded_slashes s).
Proof.
  intros H.
  destruct s as [|c2 [|c3 [|c4 [|c5 [|c6 rest]]]]]; try reflexivity.
  change (replace_encoded_slashes
            (String "&" (String c2 (String c3 (String c4 (String c5 (String c6 rest)))))))
    with (if Ascii.eqb c2 "#" && Ascii.eqb c3 "x" && Ascii.eqb c4 "2"
             && Ascii.eqb c5 "F" && Ascii.eqb c6 ";"
          then String "/" (replace_encoded_slashes rest)
          else String "&"
                 (replace_encoded_slashes
                    (String c2 (String c3 (String c4 (String c5 (String c6 rest))))))).
  destruct (Ascii.eqb_spec c2 "#") as [->|]; [|reflexivity].
  destruct (Ascii.eqb_spec c3 "x") as [->|]; [|reflexivity].
  destruct (Ascii.eqb_spec c4 "2") as [->|]; [|reflexivity].
  destruct (Ascii.eqb_spec c5 "F") as [->|]; [|reflexivity].
  destruct (Ascii.eqb_spec c6 ";") as [->|]; [|reflexivity].
  destruct rest; discriminate.
Qed.

Lemma replace_encoded_slash (s : string) :
  replace_encoded_slashes ("&#x2F;" ++ s) = String "/" (replace_encoded_slashes s).
Proof. reflexivity. Qed.

Lemma replace_entity (c : ascii) (r : string) :
  replace_encoded_slashes (Mustache.entity false c ++ r)
  = Mustache.entity true c ++ replace_encoded_slashes r.
Proof.
  unfold Mustache.entity.
  destruct (Ascii.eqb_spec c "&") as [->|Hamp];
    [cbn [append]; rewrite replace_other_entity by reflexivity; reflexivity|].
  destruct (Ascii.eqb c "<");
    [cbn [append]; rewrite replace_other_entity by reflexivity; reflexivity|].
  destruct (Ascii.eqb c ">");
    [cbn [append]; rewrite replace_other_entity by reflexivity; reflexivity|].
  destruct (Ascii.eqb c (ascii_of_nat 34));
    [cbn [append]; rewrite replace_other_entity by reflexivity; reflexivity|].
  destruct (Ascii.eqb c "'");
    [cbn [append]; rewrite replace_other_entity by reflexivity; reflexivity|].
  destruct (Ascii.eqb c "/"); [reflexivity|].
  destruct (Ascii.eqb c "`");
    [cbn [append]; rewrite replace_other_entity by reflexivity; reflexivity|].
  destruct (Ascii.eqb c "=");
    [cbn [append]; rewrite replace_other_entity by reflexivity; reflexivity|].
  cbn [append]. apply replace_other_char. now apply Ascii.eqb_neq.
Qed.

(** Replacing the encoded slashes of an escaped text gives the text
    escaped with its slashes kept. *)
Lemma replace_escaped (v r : string) :
  replace_encoded_slashes (Mustache.escapeHtml v ++ r)
  = Mustache.escape_keeping_slash v ++ replace_encoded_slashes r.
Proof.
  unfold Mustache.escapeHtml, Mustache.escape_keeping_slash.
  induction v as [|c v IH]; [reflexivity|].
  cbn [Mustache.escape_with]. rewrite !append_assoc, replace_entity. now rewrite IH.
Qed.

Lemma replace_plain_prefix (pre s : string) :
  no_char "&" pre = true ->
  replace_encoded_slashes (pre ++ s) = pre ++ replace_encoded_slashes s.
Proof.
  induction pre as [|c pre IH]; [reflexivity|].
  cbn [no_char append]. intros H. apply andb_true_iff in H as [Hc Hpre].
  rewrite replace_other_char by (now apply negb_true_iff). now rewrite IH.
Qed.

(** *** Rendering *)

Lemma scan_text_char (esc : string -> string) (view : value) (c : ascii) (s : string) :
  Ascii.eqb c "{" = false ->
  Mustache.scan esc view None (String c s)
  = option_map (String c) (Mustache.scan esc view None s).
Proof. intros H. simpl. now rewrite H. Qed.

Lemma scan_plain_prefix (esc : string -> string) (view : value) (pre s : string) :
  no_char "{" pre = true ->
  Mustache.scan esc view None (pre ++ s)
  = option_map (append pre) (Mustache.scan esc view None s).
Proof.
  induction pre as [|c pre IH].
  - intros _. cbn [append]. now destruct (Mustache.scan esc view None s).
  - cbn [no_char append]. intros H. apply andb_true_iff in H as [Hc Hpre].
    rewrite scan_text_char by (now apply negb_true_iff). rewrite IH by exact Hpre.
    now destruct (Mustache.scan esc view None s).
Qed.

(** A tag renders to the escaped text of its raw value. *)
Lemma render_tag_escapes (keep_slash : bool) (view : value) (content : string) :
  Mustache.render_tag (Mustache.escape_with keep_slash) view content
  = option_map (Mustache.escape_with keep_slash)
      (Mustache.render_tag (fun raw => raw) view content).
Proof.
  unfold Mustache.render_tag.
  destruct (_ || _); [reflexivity|].
  destruct view; try reflexivity.
  destruct (lookup _ _) as [v|]; [|now destruct (has _ object_prototype)].
  destruct v; try reflexivity; now destruct (convertible _).
Qed.

(** Rendering, then replacing the encoded slashes, is rendering with the
    slashes kept, for a template whose "&" are apart from "#" and "{". *)
Lemma replace_scanned (view : value) (n : nat) :
  forall (s : string) (tag : option string),
    String.length s <= n ->
    ampersands_apart s = true ->
    Mustache.scan Mustache.escape_keeping_slash view tag s
    = option_map replace_encoded_slashes
        (Mustache.scan Mustache.escapeHtml view tag s).
Proof.
  induction n as [|n IH]; intros s tag Hlen Hamp.
  - destruct s; [|simpl in Hlen; lia]. destruct tag; reflexivity.
  - destruct s as [|c s']; [destruct tag; reflexivity|].
    cbn [ampersands_apart] in Hamp. apply andb_true_iff in Hamp as [Hc Hs'].
    simpl in Hlen.
    assert (Htext : option_map (String c)
                      (Mustache.scan Mustache.escape_keeping_slash view None s')
                    = option_map replace_encoded_slashes
                        (option_map (String c)
                           (Mustache.scan Mustache.escapeHtml view None s'))).
    { rewrite (IH s' None) by (assumption || lia).
      destruct (Ascii.eqb_spec c "&") as [->|Hne].
      - destruct s' as [|c2 s'']; [reflexivity|].
        apply andb_true_iff in Hc as [Hhash Hbrace].
        apply negb_true_iff in Hhash, Hbrace.
        rewrite scan_text_char by exact Hbrace.
        destruct (Mustache.scan Mustache.escapeHtml view None s'') as [r|];
          [|reflexivity].
        cbn [option_map]. rewrite replace_other_entity; [reflexivity|].
        cbn [String.prefix]. apply Ascii.eqb_neq in Hhash.
        destruct (ascii_dec "#" c2); [congruence | reflexivity].
      - apply Ascii.eqb_neq in Hne.
        destruct (Mustache.scan Mustache.escapeHtml view None s') as [r|];
          [|reflexivity].
        cbn [option_map]. now rewrite replace_other_char. }
    clear Hc. destruct tag as [content|].
    + assert (Hmore : forall acc,
                Mustache.scan Mustache.escape_keeping_slash view (Some acc) s'
                = option_map replace_encoded_slashes
                    (Mustache.scan Mustache.escapeHtml view (Some acc) s')).
      { intros acc. apply IH; [lia | assumption]. }
      cbn [Mustache.scan]. destruct (Ascii.eqb c "}"); [|apply Hmore].
      destruct s' as [|c2 s'']; [apply Hmore|].
      destruct (Ascii.eqb c2 "}"); [|apply Hmore].
      cbn [ampersands_apart] in Hs'. apply andb_true_iff in Hs' as [_ Hs''].
      simpl in Hlen.
      rewrite (IH s'' None) by (assumption || lia).
      unfold Mustache.escape_keeping_slash, Mustache.escapeHtml.
      rewrite !render_tag_escapes.
      destruct (Mustache.render_tag (fun raw => raw) view content) as [raw|];
        [|reflexivity].
      cbn [option_map].
      destruct (Mustache.scan (Mustache.escape_with false) view None s'') as [r|];
        [|reflexivity].
      cbn [option_map]. f_equal. symmetry. apply replace_escaped.
    + cbn [Mustache.scan]. destruct (Ascii.eqb c "{"); [|apply Htext].
      destruct s' as [|c2 s'']; [apply Htext|].
      destruct (Ascii.eqb c2 "{"); [|apply Htext].
      cbn [ampersands_apart] in Hs'. apply andb_true_iff in Hs' as [_ Hs''].
      simpl in Hlen. apply IH; [lia | assumption].
Qed.

(** *** The URI that [client.request] builds *)

Lemma rendered_path_replaces (template : string) (view : value) :
  ampersands_apart template = true ->
  rendered_path template view
  = option_map replace_encoded_slashes (Mustache.render template view).
Proof.
  intros H. unfold rendered_path, Mustache.render, Mustache.render_with.
  now apply (replace_scanned view (String.length template)).
Qed.

(** C5, as amended: for an endpoint and an API version without "{" and
    "&" and a path template in which no "&" is directly followed by "#" or
    "{", the built URI is endpoint + "/" + apiVersion + renderedPath, where
    the rendered path has each [{{field}}] replaced by the HTML-escaped
    text of the payload's value (nothing when the field is absent) with its
    slashes left as "/": the "&#x2F;" of the templating is decoded back,
    the other entities stay. *)
Theorem built_uri
  (cfg : Config) (client : Client) (options : obj) (template rendered : string) :
  renders_variables cfg ->
  get "path" options = VStr template ->
  no_char "{" (endpoint client) && no_char "&" (endpoint client) = true ->
  no_char "{" (apiVersion client) && no_char "&" (apiVersion client) = true ->
  ampersands_apart template = true ->
  rendered_path template (get "json" options) = Some rendered ->
  request_uri cfg client options
  = Some (endpoint client ++ "/" ++ apiVersion client ++ rendered)
  /\ (forall o, In o (requests_of (fst (request cfg client options))) ->
                get "uri" o
                = VStr (endpoint client ++ "/" ++ apiVersion client ++ rendered)).
Proof.
  intros Hcfg Hpath He Hv Ht Hr.
  apply andb_true_iff in He as [He1 He2]. apply andb_true_iff in Hv as [Hv1 Hv2].
  assert (U : request_uri cfg client options
              = Some (endpoint client ++ "/" ++ apiVersion client ++ rendered)).
  { rewrite rendered_path_replaces in Hr by exact Ht.
    destruct (Mustache.render template (get "json" options)) as [r|] eqn:Er;
      [|discriminate].
    cbn [option_map] in Hr. inversion Hr; subst rendered; clear Hr.
    unfold request_uri, uri_template. rewrite Hpath. cbn [to_string].
    set (pre := endpoint client ++ "/" ++ apiVersion client).
    assert (Hpre1 : no_char "{" pre = true).
    { unfold pre. rewrite !no_char_app, He1, Hv1. reflexivity. }
    assert (Hpre2 : no_char "&" pre = true).
    { unfold pre. rewrite !no_char_app, He2, Hv2. reflexivity. }
    replace (endpoint client ++ "/" ++ apiVersion client ++ template)
      with (pre ++ template) by (unfold pre; now rewrite !append_assoc).
    rewrite (Hcfg (pre ++ template) (get "json" options) (pre ++ r)).
    - cbn [option_map]. rewrite replace_plain_prefix by exact Hpre2.
      unfold pre. now rewrite !append_assoc.
    - unfold Mustache.render, Mustache.render_with in *.
      rewrite scan_plain_prefix by exact Hpre1. now rewrite Er. }
  split; [exact U|].
  intros o Hin. rewrite request_requests in Hin.
  destruct (outgoing cfg client options) as [o'|] eqn:Ho; [|contradiction].
  destruct Hin as [<-|[]].
  destruct (outgoing_fields _ _ _ _ Ho) as (_ & _ & _ & _ & uri & Hu & ->).
  congruence.
Qed.

Lemma built_uri_witness :
  request_uri (reference_config (answering 200 VNull)) (local_client (VStr "s.client"))
    read_nested
  = Some "http://127.0.0.1:8200/v1/secret/a/b/c".
Proof.
  apply (built_uri (reference_config (answering 200 VNull))
           (local_client (VStr "s.client")) read_nested
           "/secret/{{name}}" "/secret/a/b/c").
  - intros template view r H. exact H.
  - reflexivity.
  - reflexivity.
  - reflexivity.
  - reflexivity.
  - reflexivity.
Defined.

(** C5 as stated fails: a value is not substituted as it is, its "&"
    reaches the URI as "&amp;"; and the endpoint is rendered with the
    path, a tag in it is substituted too. *)
Lemma ampersand_stays_escaped :
  (request_uri (reference_config (answering 200 VNull)) (local_client (VStr "s.client"))
     read_ampersand
   = Some "http://127.0.0.1:8200/v1/secret/a&amp;b"
   /\ specified_uri (local_client (VStr "s.client")) "/secret/{{name}}"
        (VObj [("name", VStr "a&b")])
      = Some "http://127.0.0.1:8200/v1/secret/a&b")
  /\ (request_uri (reference_config (answering 200 VNull)) templated_client read_app
      = Some "http://vault/app/v1/secret/x"
      /\ specified_uri templated_client "/secret/x" (VObj [("name", VStr "app")])
         = Some "http://vault/{{name}}/v1/secret/x")
  /\ request_uri (reference_config (answering 200 VNull))
       (local_client (VStr "s.client")) read_ampersand
     <> specified_uri (local_client (VStr "s.client")) "/secret/{{name}}"
          (VObj [("name", VStr "a&b")]).
Proof. repeat split. discriminate. Qed.

Example query_string_is_kept :
  rendered_path "/secret/{{name}}?list=true&depth=2" (VObj [("name", VStr "a/b")])
  = Some "/secret/a/b?list=true&depth=2"
  /\ ampersands_apart "/secret/{{name}}?list=true&depth=2" = true.
Proof. split; reflexivity. Qed.

(** *** Values without special characters *)

(** A text with no special character but the slash is rendered as it
    is. *)
Lemma escape_keeping_slash_plain (v : string) :
  plain_text v = true -> Mustache.escape_keeping_slash v = v.
Proof.
  unfold Mustache.escape_keeping_slash.
  induction v as [|c v IH]; [reflexivity|].
  cbn [plain_text Mustache.escape_with]. intros H.
  apply andb_true_iff in H as [Hc Hv]. rewrite (IH Hv).
  apply negb_true_iff in Hc. unfold html_special in Hc. cbn [existsb] in Hc.
  repeat (apply orb_false_iff in Hc as [? Hc]).
  unfold Mustache.entity.
  repeat match goal with H : Ascii.eqb c _ = false |- _ => rewrite H; clear H end.
  destruct (Ascii.eqb_spec c "/") as [->|]; reflexivity.
Qed.

Example nested_secret_path :
  rendered_path "/secret/{{name}}" (VObj [("name", VStr "a/b/c")])
  = Some "/secret/a/b/c".
Proof. reflexivity. Qed.

(** * Further properties of the code *)

(** ** The normalizer *)

Lemma new_Error_outcomes (message : value) :
  (forall e, new_Error message = inl e -> e = cannot_convert)
  /\ (forall error, new_Error message = inr error -> exists m, error = Error m).
Proof.
  unfold new_Error, to_text.
  destruct message; try destruct (convertible _);
    (split; [intros e H | intros error H]); inversion H; eauto.
Qed.

(** X1: the outcomes of [handleVaultResponse].  Without a response it
    rejects with "No response passed".  For a response without a request
    path it resolves when the status is 200 or 204 and throws a
    [TypeError] for every other status.  What it resolves with is the
    body of the response, unchanged; what it rejects with is an [Error]
    of its own making; what it throws is a [TypeError]. *)
Theorem normalizer_outcomes (response : option Response) :
  (response = None ->
   handleVaultResponse response = Rejected (Error "No response passed"))
  /\ (forall r, response = Some r -> request_path r = None ->
                statusCode r <> 200%Z -> statusCode r <> 204%Z ->
                exists what, handleVaultResponse response = Threw (TypeError what))
  /\ (forall e, handleVaultResponse response = Threw e -> exists what, e = TypeError what)
  /\ (forall b, handleVaultResponse response = Resolved b ->
                exists r, response = Some r /\ b = body r)
  /\ (forall e, handleVaultResponse response = Rejected e -> exists m, e = Error m).
Proof.
  split; [intros ->; reflexivity|].
  destruct response as [r|].
  - assert (Hcases :
      handleVaultResponse (Some r) = Resolved (body r)
      \/ (statusCode r <> 200%Z /\ statusCode r <> 204%Z
          /\ ((request_path r = None
               /\ exists what, handleVaultResponse (Some r) = Threw (TypeError what))
              \/ (request_path r <> None
                  /\ ((exists what, handleVaultResponse (Some r) = Threw (TypeError what))
                      \/ exists m, handleVaultResponse (Some r) = Rejected (Error m)))))).
    { destruct (Z.eq_dec (statusCode r) 200) as [E1|N1];
        [left; apply handle_success; auto|].
      destruct (Z.eq_dec (statusCode r) 204) as [E2|N2];
        [left; apply handle_success; auto|].
      rewrite handle_other_status by assumption.
      destruct (request_path r) as [p|]; [|right; eauto 8].
      destruct (matches_sys_health p); [now left|].
      right. split; [exact N1|]. split; [exact N2|]. right.
      split; [discriminate|].
      destruct (length_converts _); [|left; unfold cannot_convert; eauto].
      destruct (new_Error_outcomes (failure_message r)) as [Hl Hr].
      destruct (new_Error (failure_message r)) as [e|error].
      - left. rewrite (Hl e eq_refl). unfold cannot_convert. eauto.
      - right. destruct (Hr error eq_refl) as [m ->]. eauto. }
    split; [|split; [|split]].
    + intros r' H Hnone N1 N2. injection H as <-.
      destruct Hcases as [Hres|(_ & _ & [[_ Ht]|[Hsome _]])];
        [|exact Ht | contradiction].
      rewrite handle_other_status, Hnone by assumption. eauto.
    + intros e H.
      destruct Hcases as [Hres|(_ & _ & [[_ [w Ht]]|[_ [[w Ht]|[m Hm]]]])];
        rewrite H in *; try discriminate; inversion Ht; eauto.
    + intros b H.
      destruct Hcases as [Hres|(_ & _ & [[_ [w Ht]]|[_ [[w Ht]|[m Hm]]]])];
        rewrite H in *; try discriminate. inversion Hres. eauto.
    + intros e H.
      destruct Hcases as [Hres|(_ & _ & [[_ [w Ht]]|[_ [[w Ht]|[m Hm]]]])];
        rewrite H in *; try discriminate. inversion Hm. eauto.
  - split; [intros r H; discriminate|].
    split; [intros e; discriminate|].
    split; [intros b H; discriminate|].
    intros e H; inversion H; eauto.
Qed.

(** ** The request executor, end to end *)

Lemma outgoing_when_valid (cfg : Config) (client : Client) (options : obj) (uri : string) :
  tv4_validate cfg (VObj options) requestSchema = None ->
  request_uri cfg client options = Some uri ->
  truthy (get "headers" options) = false \/ (exists h, get "headers" options = VObj h) ->
  exists headers,
    outgoing cfg client options
    = Some (set "uri" (VStr uri) (set "headers" (VObj headers) options)).
Proof.
  intros Hv Hu Hh. unfold outgoing, outgoing_with, headers_or_empty. rewrite Hv, Hu.
  destruct Hh as [Hf|[h Hh]].
  - rewrite Hf. simpl. eauto.
  - rewrite Hh. simpl. eauto.
Qed.

(** X2: when the options pass their validation, the URI renders and
    [options.headers] is absent or an object, [client.request] validates,
    sends one request to the built URI, and its promise settles as the
    transport's does: an answer goes through [handleVaultResponse], whose
    exception, if it throws, rejects the promise; a rejection of the
    transport is passed on unchanged. *)
Theorem request_settles_as_transport
  (cfg : Config) (client : Client) (options : obj) (uri : string) :
  tv4_validate cfg (VObj options) requestSchema = None ->
  request_uri cfg client options = Some uri ->
  truthy (get "headers" options) = false \/ (exists h, get "headers" options = VObj h) ->
  exists o,
    fst (request cfg client options) = [Validated (VObj options) requestSchema; Sent o]
    /\ get "uri" o = VStr uri
    /\ (forall r, rp cfg o = Resolved r ->
                  snd (request cfg client options) = caught (handleVaultResponse r))
    /\ (forall e, rp cfg o = Rejected e ->
                  snd (request cfg client options) = Rejected e).
Proof.
  intros Hv Hu Hh.
  destruct (outgoing_when_valid cfg client options uri Hv Hu Hh) as [headers Ho].
  eexists. rewrite (request_outcome_sent _ _ _ _ Ho). cbn [fst snd].
  split; [reflexivity|]. split; [apply get_set_same|].
  split; intros x Hx; rewrite Hx; reflexivity.
Qed.

Lemma request_settles_as_transport_witness :
  snd (request (reference_config (failing_transport (VStr "ECONNREFUSED")))
         (local_client (VStr "s.client")) read_app_options)
  = Rejected (TransportError (VStr "ECONNREFUSED")).
Proof.
  destruct (request_settles_as_transport
              (reference_config (failing_transport (VStr "ECONNREFUSED")))
              (local_client (VStr "s.client")) read_app_options
              "http://127.0.0.1:8200/v1/secret/app")
    as (o & _ & _ & _ & Hrej).
  - reflexivity.
  - reflexivity.
  - left. reflexivity.
  - apply Hrej. reflexivity.
Defined.

(** X3: no retries: a call of [client.request], and so of every generic
    verb, sends at most one request, and so does a generated operation,
    whatever the transport answers. *)
Theorem at_most_one_request
  (cfg : Config) (client : Client) (conf : Command) (options args : obj) :
  List.length (requests_of (fst (request cfg client options))) <= 1
  /\ List.length (requests_of (fst (generateFunction cfg client conf args))) <= 1.
Proof.
  assert (R : forall places o,
            List.length (requests_of (fst (request_with cfg client places o))) <= 1).
  { intros places o. rewrite request_with_requests.
    destruct (outgoing_with cfg client places o); simpl; lia. }
  split; [apply R|].
  destruct (truthy (schema conf)) eqn:Hs.
  - rewrite generated_requests by exact Hs.
    destruct (snd (validate _ _ _)); try (simpl; lia).
    destruct (snd (extendOptions _ _)); try (simpl; lia). apply R.
  - rewrite generated_without_schema by exact Hs. apply R.
Qed.



(** X5: the test of line 79 holds for every value of the token, so every
    request that [client.request] sends has its X-Vault-Token header set
    to [client.token], be it [undefined], [null] or the empty string. *)
Theorem token_header_for_any_token
  (cfg : Config) (client : Client) (options : obj) :
  token_test (token client) = true
  /\ (forall o, In o (requests_of (fst (request cfg client options))) ->
                exists headers,
                  get "headers" o = VObj headers
                  /\ lookup "X-Vault-Token" headers = Some (token client)).
Proof.
  split; [now destruct (token client)|].
  intros o. rewrite request_requests.
  destruct (outgoing cfg client options) as [o'|] eqn:Ho; [|intros []].
  intros [<-|[]]. revert Ho. unfold outgoing, outgoing_with.
  destruct (tv4_validate cfg (VObj options) requestSchema); [discriminate|].
  destruct (request_uri cfg client options) as [uri|]; [|discriminate].
  destruct (assign_prop _ _ _) as [hs|] eqn:Ha; [|discriminate].
  intros H; inversion H; subst; clear H.
  unfold write_through. cbn [fold_left].
  rewrite get_set_other, get_set_same by discriminate.
  destruct (headers_or_empty options); simpl in Ha; try discriminate;
    inversion Ha; subst; eexists; (split; [reflexivity | apply lookup_set_same]).
Qed.

Lemma token_header_for_any_token_witness :
  exists headers,
    get "headers"
      (sent_by (reference_config (answering 200 VNull)) (local_client VUndefined)
         read_app_options)
    = VObj headers
    /\ lookup "X-Vault-Token" headers = Some VUndefined.
Proof.
  apply (proj2 (token_header_for_any_token (reference_config (answering 200 VNull))
                  (local_client VUndefined) read_app_options)).
  vm_compute. left. reflexivity.
Defined.

Lemma normalizer_outcomes_witness :
  handleVaultResponse None = Rejected (Error "No response passed").
Proof. apply (proj1 (normalizer_outcomes None)). reflexivity. Defined.

(** ** No encoded slash is left in the URI *)

Lemma replace_ampersand_cases (s : string) :
  (exists rest, s = "#x2F;" ++ rest
                /\ replace_encoded_slashes (String "&" s)
                   = String "/" (replace_encoded_slashes rest))
  \/ (String.prefix "#x2F;" s = false
      /\ replace_encoded_slashes (String "&" s)
         = String "&" (replace_encoded_slashes s)).
Proof.
  destruct (String.prefix "#x2F;" s) eqn:E.
  - left. apply prefix_app in E as [rest ->]. exists rest. split; reflexivity.
  - right. split; [reflexivity | now apply replace_other_entity].
Qed.

(** A character of the result that is neither "&" nor "/" is a character
    of the text, at that place. *)
Lemma replace_head (s r : string) (c : ascii) :
  replace_encoded_slashes s = String c r ->
  c <> "&"%char -> c <> "/"%char ->
  exists s', s = String c s' /\ r = replace_encoded_slashes s'.
Proof.
  destruct s as [|a s']; [discriminate|].
  destruct (Ascii.eqb_spec a "&") as [->|Hne].
  - destruct (replace_ampersand_cases s') as [(rest & _ & ->)|(_ & ->)];
      intros H; inversion H; congruence.
  - rewrite replace_other_char by (now apply Ascii.eqb_neq).
    intros H _ _. inversion H; subst. eauto.
Qed.

Lemma replace_reflects_tail (s : string) :
  String.prefix "#x2F;" (replace_encoded_slashes s) = true ->
  String.prefix "#x2F;" s = true.
Proof.
  intros H. apply prefix_app in H as [t Ht]. cbn [append] in Ht.
  apply replace_head in Ht as (s1 & -> & Ht); [|discriminate..]. symmetry in Ht.
  apply replace_head in Ht as (s2 & -> & Ht); [|discriminate..]. symmetry in Ht.
  apply replace_head in Ht as (s3 & -> & Ht); [|discriminate..]. symmetry in Ht.
  apply replace_head in Ht as (s4 & -> & Ht); [|discriminate..]. symmetry in Ht.
  apply replace_head in Ht as (s5 & -> & Ht); [|discriminate..].
  apply prefix_app. exists s5. reflexivity.
Qed.

Lemma prefix_cons (a b : ascii) (p s : string) :
  String.prefix (String a p) (String b s)
  = if ascii_dec a b then String.prefix p s else false.
Proof. reflexivity. Qed.

Lemma replaced_has_no_encoded_slash (n : nat) :
  forall s, String.length s <= n ->
            contains "&#x2F;" (replace_encoded_slashes s) = false.
Proof.
  induction n as [|n IH]; intros s Hlen.
  - destruct s; [reflexivity | simpl in Hlen; lia].
  - destruct s as [|a s']; [reflexivity|]. simpl in Hlen.
    destruct (Ascii.eqb_spec a "&") as [->|Hne].
    + destruct (replace_ampersand_cases s') as [(rest & -> & ->)|(Hp & ->)].
      * rewrite contains_cons, prefix_cons. cbn [orb].
        destruct (ascii_dec "&" "/"); [discriminate|]. cbn [orb].
        apply IH. cbn [append String.length] in Hlen. lia.
      * rewrite contains_cons, prefix_cons.
        destruct (ascii_dec "&" "&"); [|congruence].
        rewrite (IH s') by lia. rewrite orb_false_r.
        destruct (String.prefix "#x2F;" (replace_encoded_slashes s')) eqn:E;
          [|reflexivity].
        apply replace_reflects_tail in E. congruence.
    + rewrite replace_other_char by (now apply Ascii.eqb_neq).
      rewrite contains_cons, prefix_cons.
      destruct (ascii_dec "&" a); [congruence|]. cbn [orb]. apply IH. lia.
Qed.

(** X6: whatever the templating engine renders, the URI that
    [client.request] builds, and sends, has no "&#x2F;" left in it. *)
Theorem uri_has_no_encoded_slash
  (cfg : Config) (client : Client) (options : obj) :
  (forall uri, request_uri cfg client options = Some uri ->
               contains "&#x2F;" uri = false)
  /\ (forall o, In o (requests_of (fst (request cfg client options))) ->
                exists uri, get "uri" o = VStr uri /\ contains "&#x2F;" uri = false).
Proof.
  assert (U : forall uri, request_uri cfg client options = Some uri ->
                          contains "&#x2F;" uri = false).
  { unfold request_uri. intros uri H.
    destruct (convertible _); [|discriminate].
    destruct (mustache_render cfg _ _) as [r|]; [|discriminate].
    inversion H. apply (replaced_has_no_encoded_slash (String.length r)). lia. }
  split; [exact U|].
  intros o. rewrite request_requests.
  destruct (outgoing cfg client options) as [o'|] eqn:Ho; [|intros []].
  intros [<-|[]].
  destruct (outgoing_fields _ _ _ _ Ho) as (_ & _ & _ & _ & uri & Hu & Hget).
  exists uri. split; [exact Hget | apply U, Hu].
Qed.

Lemma uri_has_no_encoded_slash_witness :
  contains "&#x2F;" "http://127.0.0.1:8200/v1/secret/a/b/c" = false.
Proof.
  apply (proj1 (uri_has_no_encoded_slash (reference_config (answering 200 VNull))
                  (local_client (VStr "s.client")) read_nested)).
  reflexivity.
Defined.

(** ** Generated operations: validations, failures, method and path *)

Lemma request_schema_failure_aborts_witness :
  snd (generateFunction (reference_config (answering 200 VNull))
         (local_client (VStr "s.client")) both_schemas_command [("name", VStr "app")])
  = Rejected (ValidationError (Tv4.violation "" "Missing required property: value"))
  /\ requests_of
       (fst (generateFunction (reference_config (answering 200 VNull))
               (local_client (VStr "s.client")) both_schemas_command
               [("name", VStr "app")]))
     = [].
Proof.
  apply (request_schema_failure_aborts (reference_config (answering 200 VNull))
           (local_client (VStr "s.client")) both_schemas_command [("name", VStr "app")]).
  - reflexivity.
  - discriminate.
  - reflexivity.
Defined.

Lemma validations_of_app (t t' : list Event) :
  validations_of (t ++ t') = (validations_of t ++ validations_of t')%list.
Proof. apply flat_map_app. Qed.

Lemma validations_of_then {A B} (p : Call A) (f : A -> Call B) :
  validations_of (fst (then_ p f))
  = (validations_of (fst p)
     ++ match snd p with
        | Resolved a => validations_of (fst (f a))
        | _ => []
        end)%list.
Proof.
  destruct p as [t [a|e|e]]; simpl; try now rewrite app_nil_r.
  destruct (f a) as [t' c]. simpl. apply validations_of_app.
Qed.

Lemma defined_is_not_undefined (v : value) :
  v <> VUndefined -> strict_eq v VUndefined = false.
Proof. destruct v; try reflexivity. congruence. Qed.

Lemma validate_trace (cfg : Config) (json schema : value) :
  schema <> VUndefined ->
  fst (validate cfg json schema) = [Validated json schema].
Proof.
  intros H. unfold validate.
  destruct schema; try congruence; simpl;
    match goal with |- context [tv4_validate ?c ?j ?s] =>
      destruct (tv4_validate c j s); reflexivity end.
Qed.

Lemma validate_never_throws (cfg : Config) (json schema : value) :
  snd (validate cfg json schema) = Resolved tt
  \/ exists err, snd (validate cfg json schema) = Rejected (ValidationError err).
Proof.
  rewrite validate_outcome. destruct (strict_eq schema VUndefined); [now left|].
  destruct (tv4_validate cfg json schema); eauto.
Qed.

(** X7: the validations of a generated operation.  Without a schema the
    payload is not validated, only the options are, by [client.request].
    With a request and a query schema, both validations of the payload are
    performed, the request schema first, and the query validation also
    runs when the request validation has failed; the validation of the
    options comes last, if at all, and not after a failed request
    validation. *)
Theorem generated_validations
  (cfg : Config) (client : Client) (conf : Command) (args : obj) :
  (truthy (schema conf) = false ->
   validations_of (fst (generateFunction cfg client conf args))
   = [(VObj (operation_options cfg conf args), requestSchema)])
  /\ (truthy (schema conf) = true ->
      prop (schema conf) "req" <> VUndefined ->
      prop (schema conf) "query" <> VUndefined ->
      exists rest,
        validations_of (fst (generateFunction cfg client conf args))
        = ((VObj args, prop (schema conf) "req")
           :: (VObj args, prop (schema conf) "query") :: rest)%list
        /\ (rest = [] \/ exists extended, rest = [(VObj extended, requestSchema)])
        /\ (forall err,
              tv4_validate cfg (VObj args) (prop (schema conf) "req") = Some err ->
              rest = [])).
Proof.
  split.
  - intros Hs. rewrite generated_without_schema by exact Hs.
    apply request_with_validations.
  - intros Hs Hreq Hquery. rewrite generated_with_schema by exact Hs.
    rewrite validations_of_then, snd_then, validations_of_then.
    unfold then_promise. cbn [fst snd].
    rewrite validations_of_app, !validate_trace by assumption.
    rewrite extendOptions_sends_nothing.
    eexists. split; [cbn [validations_of flat_map app]; reflexivity|].
    rewrite validate_outcome.
    assert (Hd : strict_eq (prop (schema conf) "req") VUndefined = false)
      by (now apply defined_is_not_undefined).
    rewrite Hd.
    destruct (tv4_validate cfg (VObj args) (prop (schema conf) "req")) as [err|].
    + split; [now left | reflexivity].
    + cbn [validations_of flat_map app].
      destruct (snd (extendOptions conf (operation_options cfg conf args)))
        as [extended| |]; cbn [caught].
      * rewrite request_with_validations. split; [right; eauto | discriminate].
      * split; [now left | discriminate].
      * split; [now left | discriminate].
Qed.

Lemma generated_validations_witness :
  validations_of
    (fst (generateFunction (reference_config (answering 200 VNull))
            (local_client (VStr "s.client")) both_schemas_command
            [("name", VStr "app")]))
  = [(VObj [("name", VStr "app")], prop (schema both_schemas_command) "req");
     (VObj [("name", VStr "app")], prop (schema both_schemas_command) "query")].
Proof.
  destruct (proj2 (generated_validations (reference_config (answering 200 VNull))
                     (local_client (VStr "s.client")) both_schemas_command
                     [("name", VStr "app")]))
    as (rest & -> & _ & Hrest).
  - reflexivity.
  - discriminate.
  - discriminate.
  - rewrite (Hrest (Tv4.violation "" "Missing required property: value") eq_refl).
    reflexivity.
Defined.

(** X8: a generated operation with a schema never throws: a failure of
    whatever kind, an exception of the templating engine or a [TypeError]
    of [extendOptions] included, is a rejection of the promise it
    returns. *)
Theorem generated_failures_are_rejections
  (cfg : Config) (client : Client) (conf : Command) (args : obj) :
  truthy (schema conf) = true ->
  forall e, snd (generateFunction cfg client conf args) <> Threw e.
Proof.
  intros Hs e. rewrite generated_with_schema by exact Hs.
  rewrite !snd_then. unfold then_promise. cbn [snd].
  destruct (validate_never_throws cfg (VObj args) (prop (schema conf) "req"))
    as [->|[err ->]]; [|discriminate].
  destruct (snd (extendOptions conf (operation_options cfg conf args)));
    cbn [caught]; try discriminate.
  destruct (snd (request_with cfg client (shared_headers args) a)); discriminate.
Qed.

Lemma generated_failures_are_rejections_witness :
  snd (generateFunction throwing_renderer (local_client (VStr "s.client"))
         schema_only_command [])
  <> Threw RenderError.
Proof.
  apply (generated_failures_are_rejections throwing_renderer
           (local_client (VStr "s.client")) schema_only_command []).
  reflexivity.
Defined.

Example schema_operation_rejects :
  snd (generateFunction throwing_renderer (local_client (VStr "s.client"))
         schema_only_command [])
  = Rejected RenderError.
Proof. reflexivity. Qed.

(** Without a schema the same exception is thrown to the caller. *)
Example unschema_operation_throws :
  snd (generateFunction throwing_renderer (local_client (VStr "s.client"))
         plain_command [])
  = Threw RenderError.
Proof. reflexivity. Qed.

(** X9: a query schema that declares no [properties] makes the operation
    fail for every payload that passes the request schema: [Object.keys]
    throws in [extendOptions], the promise rejects with that [TypeError],
    and nothing is sent. *)
Theorem query_schema_without_properties
  (cfg : Config) (client : Client) (conf : Command) (args : obj) :
  truthy (schema conf) = true ->
  snd (validate cfg (VObj args) (prop (schema conf) "req")) = Resolved tt ->
  truthy (prop (schema conf) "query") = true ->
  nullish (prop (prop (schema conf) "query") "properties") = true ->
  (exists what, snd (generateFunction cfg client conf args) = Rejected (TypeError what))
  /\ requests_of (fst (generateFunction cfg client conf args)) = [].
Proof.
  intros Hs Hv Hq Hp.
  destruct (query_schema_failure_is_ignored cfg client conf args Hs Hv) as [-> ->].
  assert (Hn : nullish (schema conf) = false) by (now destruct (schema conf)).
  assert (Hk : object_keys (prop (prop (schema conf) "query") "properties") = None)
    by (now destruct (prop (prop (schema conf) "query") "properties")).
  unfold extendOptions. rewrite Hn, Hq, Hk. cbn. split; [eauto | reflexivity].
Qed.

Lemma query_schema_without_properties_witness :
  requests_of
    (fst (generateFunction (reference_config (answering 200 VNull))
            (local_client (VStr "s.client")) no_properties_command
            [("name", VStr "app")]))
  = [].
Proof.
  apply (query_schema_without_properties (reference_config (answering 200 VNull))
           (local_client (VStr "s.client")) no_properties_command
           [("name", VStr "app")]);
    reflexivity.
Defined.

(** X10: the method and the path of a generated operation are those of
    its command: every request it sends has [conf.method] as its method
    and a path that starts with [conf.path], whatever [args.requestOptions]
    and [config.requestOptions] contain. *)
Theorem generated_method_and_path
  (cfg : Config) (client : Client) (conf : Command) (args o : obj) :
  In o (requests_of (fst (generateFunction cfg client conf args))) ->
  get "method" o = VStr (method conf)
  /\ exists query, get "path" o = VStr (path conf ++ query).
Proof.
  assert (Hm : get "method" (operation_options cfg conf args) = VStr (method conf)).
  { unfold operation_options. rewrite !get_set_other by discriminate.
    apply get_set_same. }
  intros Hin.
  destruct (generated_request_sent cfg client conf args o Hin)
    as (extended & Ho & Hsame & Hpath).
  destruct (outgoing_with_fields cfg client _ extended o Ho) as (_ & _ & Hk).
  rewrite !Hk by (discriminate || apply shared_headers_apart; discriminate).
  rewrite !get_set_other by discriminate.
  split; [|exact Hpath]. rewrite Hsame by discriminate. exact Hm.
Qed.

Lemma generated_method_and_path_witness :
  get "method"
    (sent_by_operation (reference_config (answering 200 VNull))
       (local_client (VStr "s.client")) list_command overriding_args)
  = VStr "GET".
Proof.
  apply (generated_method_and_path (reference_config (answering 200 VNull))
           (local_client (VStr "s.client")) list_command overriding_args).
  vm_compute. left. reflexivity.
Defined.

(** ** Merging the request options *)

Lemma lookup_app (k : string) (a b : obj) :
  lookup k (a ++ b)%list
  = match lookup k a with
    | Some v => Some v
    | None => lookup k b
    end.
Proof.
  induction a as [|[k' v'] a IH]; [reflexivity|].
  simpl. destruct (String.eqb k' k); [reflexivity | exact IH].
Qed.

Lemma lookup_set (k k' : string) (v : value) (o : obj) :
  lookup k (set k' v o) = if String.eqb k' k then Some v else lookup k o.
Proof.
  destruct (String.eqb_spec k' k) as [->|Hne].
  - apply lookup_set_same.
  - apply lookup_set_other. congruence.
Qed.

(** Assigning the properties of a source one after the other: the last
    assignment to a name is the one that stays. *)
Lemma lookup_assigned (k : string) (source target : obj) :
  lookup k (fold_left (fun acc kv => set (fst kv) (snd kv) acc) source target)
  = match lookup k (rev source) with
    | Some v => Some v
    | None => lookup k target
    end.
Proof.
  revert target. induction source as [|[k' v'] source IH]; intros target.
  - reflexivity.
  - cbn [fold_left rev fst snd]. rewrite IH, lookup_app, lookup_set.
    destruct (lookup k (rev source)); [reflexivity|].
    simpl. now destruct (String.eqb k' k).
Qed.

Lemma lookup_In (k : string) (v : value) (o : obj) :
  lookup k o = Some v -> In (k, v) o.
Proof.
  induction o as [|[k' v'] o IH]; [discriminate|]. simpl.
  destruct (String.eqb_spec k' k) as [->|Hne].
  - intros H; inversion H. now left.
  - intros H. right. now apply IH.
Qed.

Lemma In_lookup (k : string) (v : value) (o : obj) :
  NoDup (keys o) -> In (k, v) o -> lookup k o = Some v.
Proof.
  induction o as [|[k' v'] o IH]; [intros _ []|].
  cbn [keys map fst]. intros Hnd Hin. inversion Hnd as [|? ? Hnot Hnd']; subst.
  simpl. destruct Hin as [Heq|Hin].
  - inversion Heq; subst. now rewrite String.eqb_refl.
  - destruct (String.eqb_spec k' k) as [->|Hne].
    + exfalso. apply Hnot. apply (in_map fst) in Hin. exact Hin.
    + now apply IH.
Qed.

Lemma lookup_rev (k : string) (o : obj) :
  NoDup (keys o) -> lookup k (rev o) = lookup k o.
Proof.
  intros Hnd.
  assert (Hnd' : NoDup (keys (rev o))).
  { unfold keys. rewrite map_rev. now apply NoDup_rev. }
  destruct (lookup k o) as [v|] eqn:E.
  - apply In_lookup; [exact Hnd'|]. apply in_rev. rewrite rev_involutive.
    now apply lookup_In.
  - destruct (lookup k (rev o)) as [v|] eqn:E'; [|reflexivity].
    apply lookup_In in E'. apply in_rev in E'.
    apply (In_lookup _ _ _ Hnd) in E'. congruence.
Qed.

(** X11: [Object.assign({}, config.requestOptions, requestOptions)]: an
    option of the call overrides the default of the configuration, and a
    default that the call does not mention is kept; without options of
    the call the defaults are used as they are. *)
Theorem call_options_override_defaults
  (cfg : Config) (defaults per_call : obj) (k : string) :
  requestOptions cfg = VObj defaults ->
  NoDup (keys defaults) -> NoDup (keys per_call) ->
  get k (base_options cfg (VObj per_call))
  = match lookup k per_call with
    | Some v => v
    | None => get k defaults
    end
  /\ get k (base_options cfg VUndefined) = get k defaults.
Proof.
  intros Hcfg Hd Hp. unfold base_options, assign, get. rewrite Hcfg.
  cbn [own_props fold_left]. rewrite !lookup_assigned.
  rewrite (lookup_rev k defaults Hd), (lookup_rev k per_call Hp).
  cbn [lookup]. split.
  - destruct (lookup k per_call); [reflexivity|].
    now destruct (lookup k defaults).
  - now destruct (lookup k defaults).
Qed.

Lemma call_options_override_defaults_witness :
  get "timeout" (base_options config_with_timeout (VObj [("timeout", VNum 50)]))
  = VNum 50.
Proof.
  apply (proj1 (call_options_override_defaults config_with_timeout
                  [("timeout", VNum 1000); ("proxy", VStr "http://proxy:3128")]
                  [("timeout", VNum 50)] "timeout" eq_refl
                  ltac:(repeat constructor; simpl; intuition discriminate)
                  ltac:(repeat constructor; simpl; intuition discriminate))).
Defined.

(** ** The query string *)

Lemma hex_digit_unreserved (n : nat) : uri_unreserved (hex_digit n) = true.
Proof. do 15 (destruct n as [|n]; [reflexivity|]). reflexivity. Qed.

Lemma chars_app (s t : string) : chars (s ++ t) = (chars s ++ chars t)%list.
Proof. induction s as [|c s IH]; [reflexivity | simpl; now rewrite IH]. Qed.

Lemma percent_encode_chars (s : string) (c : ascii) :
  In c (chars (percent_encode s)) -> uri_unreserved c = true \/ c = "%"%char.
Proof.
  induction s as [|a s IH]; [intros []|].
  cbn [percent_encode]. rewrite chars_app. intros H. apply in_app_or in H as [H|H].
  - destruct (uri_unreserved a) eqn:Ha.
    + destruct H as [<-|[]]. now left.
    + unfold percent_byte in H. cbn [chars In] in H.
      destruct H as [<-|[<-|[<-|[]]]];
        [now right | left; apply hex_digit_unreserved
         | left; apply hex_digit_unreserved].
  - now apply IH.
Qed.

Lemma no_char_of_chars (bad : ascii) (s : string) :
  (forall c, In c (chars s) -> c <> bad) -> no_char bad s = true.
Proof.
  induction s as [|a s IH]; [reflexivity|]. intros H. cbn [no_char].
  apply andb_true_iff. split.
  - apply negb_true_iff, Ascii.eqb_neq, H. now left.
  - apply IH. intros c Hc. apply H. now right.
Qed.

Lemma encoded_chars (v : value) (encoded : string) (c : ascii) :
  encodeURIComponent v = inr encoded ->
  In c (chars encoded) -> uri_unreserved c = true \/ c = "%"%char.
Proof.
  unfold encodeURIComponent, encode_text.
  destruct (to_text v) as [e|s]; [discriminate|].
  destruct (has_lone_surrogate s); [discriminate|].
  intros H. injection H as <-. apply percent_encode_chars.
Qed.

Lemma push_params_collects
  (declared : list string) (payload : obj) (acc params : list string) (param : string) :
  push_params declared (VObj payload) acc = inr params ->
  In param params ->
  In param acc
  \/ exists key encoded,
       param = key ++ "=" ++ encoded
       /\ In key declared
       /\ has key payload || has key object_prototype = true
       /\ encodeURIComponent (member (VObj payload) key) = inr encoded.
Proof.
  revert acc. induction declared as [|key rest IH]; intros acc.
  - cbn [push_params]. intros H Hin. injection H as <-. now left.
  - cbn [push_params]. rewrite in_object.
    destruct (has key payload || has key object_prototype) eqn:Hkey.
    + destruct (encodeURIComponent (member (VObj payload) key)) as [e|encoded] eqn:He;
        [discriminate|].
      intros H Hin. destruct (IH _ H Hin) as [Hacc|(k & enc & Hp & Hk & Hr)].
      * apply in_app_or in Hacc as [Hacc|[<-|[]]]; [now left|].
        right. exists key, encoded. repeat split; try assumption. now left.
      * right. exists k, enc. repeat split; try assumption;
          [now right | apply Hr | apply Hr].
    + intros H Hin. destruct (IH _ H Hin) as [Hacc|(k & enc & Hp & Hk & Hr)].
      * now left.
      * right. exists k, enc. repeat split; try assumption;
          [now right | apply Hr | apply Hr].
Qed.

(** X12: every parameter that [extendOptions] collects is a declared name
    that is [in] the payload - a key of the payload, or a name that it
    inherits -, an "=", and the value percent-encoded: the encoded value
    consists of unreserved characters and "%" only, so that no value can
    bring an "&", "=", "?", "#" or "/" of its own into the query. *)
Theorem query_values_are_encoded
  (declared : list string) (payload : obj) (params : list string) (param : string) :
  push_params declared (VObj payload) [] = inr params ->
  In param params ->
  exists key encoded,
    param = key ++ "=" ++ encoded
    /\ In key declared
    /\ in_operator key (VObj payload) = Some true
    /\ (has key payload = true \/ has key object_prototype = true)
    /\ encodeURIComponent (member (VObj payload) key) = inr encoded
    /\ (has key payload = true -> encodeURIComponent (get key payload) = inr encoded)
    /\ (forall c, In c (chars encoded) -> uri_unreserved c = true \/ c = "%"%char)
    /\ no_char "&" encoded = true /\ no_char "=" encoded = true
    /\ no_char "?" encoded = true /\ no_char "#" encoded = true
    /\ no_char "/" encoded = true.
Proof.
  intros H Hin.
  destruct (push_params_collects _ _ _ _ _ H Hin)
    as [[]|(key & encoded & Hp & Hdecl & Hkey & He)].
  exists key, encoded.
  assert (Hc : forall c, In c (chars encoded) -> uri_unreserved c = true \/ c = "%"%char)
    by (intros c; exact (encoded_chars _ _ c He)).
  split; [exact Hp|]. split; [exact Hdecl|].
  split; [rewrite in_object, Hkey; reflexivity|].
  split; [now apply orb_true_iff|].
  split; [exact He|].
  split.
  { intros Hown. revert He. unfold member, owns. cbn [own_props prop].
    now rewrite Hown. }
  split; [exact Hc|].
  repeat split;
    apply no_char_of_chars; intros c Hcin Heq; subst c;
    destruct (Hc _ Hcin) as [Hu|Hpc]; discriminate.
Qed.

Lemma query_values_are_encoded_witness :
  exists key encoded,
    "q=a%26b%3D1" = key ++ "=" ++ encoded /\ no_char "&" encoded = true.
Proof.
  destruct (query_values_are_encoded ["q"] [("q", VStr "a&b=1")] ["q=a%26b%3D1"]
              "q=a%26b%3D1" eq_refl (or_introl eq_refl))
    as (key & encoded & Hp & _ & _ & _ & _ & _ & _ & Hamp & _).
  exists key, encoded. split; assumption.
Defined.

(** ** Construction *)

Lemma or_else_truthy (a b : value) :
  truthy b = true -> truthy (or_else a b) = true.
Proof. intros H. unfold or_else. destruct (truthy a) eqn:E; assumption. Qed.

(** X13: the defaults of a new client.  Its API version and its endpoint
    are never falsy; a [config.endpoint] that is missing or empty gives
    way to VAULT_ADDR, and a VAULT_ADDR that is unset or empty to
    "http://127.0.0.1:8200"; a missing or empty [config.token] gives way to
    VAULT_TOKEN, set or not; TLS verification is on exactly when
    VAULT_SKIP_VERIFY is unset or empty, and off for any other text. *)
Theorem construction_defaults (config : obj) (env : Environment) :
  truthy (initial_apiVersion config) = true
  /\ truthy (initial_endpoint config env) = true
  /\ (truthy (get "endpoint" config) = true ->
      initial_endpoint config env = get "endpoint" config)
  /\ (truthy (get "endpoint" config) = false ->
      initial_endpoint config env
      = match VAULT_ADDR env with
        | Some (String c s) => VStr (String c s)
        | _ => VStr "http://127.0.0.1:8200"
        end)
  /\ (truthy (get "token" config) = false ->
      initial_token config env = env_value (VAULT_TOKEN env))
  /\ (strictSSL env = true
      <-> VAULT_SKIP_VERIFY env = None \/ VAULT_SKIP_VERIFY env = Some "").
Proof.
  split; [apply or_else_truthy; reflexivity|].
  split; [apply or_else_truthy; reflexivity|].
  split; [intros H; unfold initial_endpoint, or_else; rewrite H; cbn; now rewrite H|].
  split.
  - intros H. unfold initial_endpoint, or_else. rewrite H.
    destruct (VAULT_ADDR env) as [[|c s]|]; reflexivity.
  - split.
    + intros H. unfold initial_token, or_else. now rewrite H.
    + unfold strictSSL. destruct (VAULT_SKIP_VERIFY env) as [[|c s]|]; cbn;
        split; intros H; auto; try discriminate;
        destruct H; discriminate.
Qed.

Example skip_verify_zero_disables_tls :
  strictSSL (mkEnvironment None None (Some "0")) = false
  /\ strictSSL (mkEnvironment None None (Some "false")) = false.
Proof. split; reflexivity. Qed.

Lemma construction_defaults_witness :
  initial_endpoint [("endpoint", VStr "")]
    (mkEnvironment (Some "https://vault:8200") None None)
  = VStr "https://vault:8200".
Proof.
  apply (proj1 (proj2 (proj2 (proj2 (construction_defaults [("endpoint", VStr "")]
           (mkEnvironment (Some "https://vault:8200") None None)))))).
  reflexivity.
Defined.

(** ** Installing the command table *)

Lemma pick_put_same {A} (name : string) (x : A) (o : list (string * A)) :
  pick name (put name x o) = Some x.
Proof.
  induction o as [|[k y] o IH]; simpl.
  - now rewrite String.eqb_refl.
  - destruct (String.eqb k name) eqn:E; simpl.
    + now rewrite String.eqb_refl.
    + now rewrite E.
Qed.

Lemma pick_put_other {A} (name other : string) (x : A) (o : list (string * A)) :
  name <> other -> pick name (put other x o) = pick name o.
Proof.
  intros Hne. induction o as [|[k y] o IH]; simpl.
  - destruct (String.eqb_spec other name); [congruence | reflexivity].
  - destruct (String.eqb_spec k other) as [->|N]; simpl.
    + destruct (String.eqb_spec other name); [congruence | reflexivity].
    + now rewrite IH.
Qed.

Lemma pick_In {A} (name : string) (x : A) (o : list (string * A)) :
  pick name o = Some x -> In name (map fst o).
Proof.
  induction o as [|[k y] o IH]; [discriminate|]. simpl.
  destruct (String.eqb_spec k name) as [->|Hne]; [now left|].
  intros H. right. now apply IH.
Qed.

Lemma not_In_pick {A} (name : string) (o : list (string * A)) :
  pick name o = None -> ~ In name (map fst o).
Proof.
  induction o as [|[k y] o IH]; [intros _ []|]. simpl.
  destruct (String.eqb_spec k name) as [->|Hne]; [discriminate|].
  intros H [Heq|Hin]; [congruence | now apply IH].
Qed.

Lemma installed_other (commands : list (string * Command)) (name : string)
  (names : list string) (client : list (string * Member)) :
  ~ In name names ->
  pick name (fold_left (assignFunctions commands) names client) = pick name client.
Proof.
  revert client. induction names as [|n names IH]; intros client Hnot;
    [reflexivity|].
  cbn [fold_left]. rewrite IH by (intros H; apply Hnot; now right).
  unfold assignFunctions. destruct (pick n commands); [|reflexivity].
  apply pick_put_other. intros ->. apply Hnot. now left.
Qed.

Lemma installed_command (commands : list (string * Command)) (name : string)
  (conf : Command) (names : list string) (client : list (string * Member)) :
  pick name commands = Some conf -> In name names ->
  pick name (fold_left (assignFunctions commands) names client)
  = Some (Generated conf).
Proof.
  intros Hc. revert client. induction names as [|n names IH]; intros client Hin;
    [destruct Hin|].
  cbn [fold_left].
  destruct (in_dec string_dec name names) as [Hlater|Hnot]; [now apply IH|].
  destruct Hin as [->|Hin]; [|contradiction].
  rewrite installed_other by exact Hnot.
  unfold assignFunctions. rewrite Hc. apply pick_put_same.
Qed.

(** X14: the client that [module.exports] returns.  Every command of the
    table is installed under its name as the function generated for it;
    a name that is no command keeps what the facade put there; so a
    command named like a member of the facade ([read], [request],
    [token], ...) replaces that member, and without such a command all
    of them are in place. *)
Theorem commands_are_installed
  (config : obj) (env : Environment) (commands : list (string * Command)) :
  (forall name conf,
     pick name commands = Some conf ->
     pick name (new_client config env commands) = Some (Generated conf))
  /\ (forall name,
        pick name commands = None ->
        pick name (new_client config env commands) = pick name (facade config env))
  /\ ((forall name, In name facade_names -> pick name commands = None) ->
      pick "request" (new_client config env commands) = Some Request
      /\ pick "handleVaultResponse" (new_client config env commands)
         = Some HandleVaultResponse
      /\ pick "read" (new_client config env commands) = Some Read
      /\ pick "write" (new_client config env commands) = Some Write
      /\ pick "list" (new_client config env commands) = Some List
      /\ pick "delete" (new_client config env commands) = Some Delete
      /\ pick "help" (new_client config env commands) = Some Help
      /\ pick "token" (new_client config env commands)
         = Some (Field (initial_token config env))).
Proof.
  assert (Hkeep : forall name,
             pick name commands = None ->
             pick name (new_client config env commands)
             = pick name (facade config env)).
  { intros name H. apply installed_other. now apply not_In_pick. }
  split; [|split; [exact Hkeep|]].
  - intros name conf H. apply installed_command; [exact H|].
    eapply pick_In, H.
  - intros Hfree.
    repeat split; rewrite Hkeep by (apply Hfree; simpl; tauto); reflexivity.
Qed.

Lemma commands_are_installed_witness :
  pick "read" (new_client [] (mkEnvironment None None None) sample_commands)
  = Some (Generated list_command).
Proof.
  apply (proj1 (commands_are_installed [] (mkEnvironment None None None)
                  sample_commands)).
  reflexivity.
Defined.

(** ** What is sent has been checked *)

(** X15: [client.request] sends nothing that it has not checked: a
    request reaches the transport only when the options passed their
    validation and the URI rendered, and it carries that URI. *)
Theorem only_validated_options_are_sent
  (cfg : Config) (client : Client) (options o : obj) :
  In o (requests_of (fst (request cfg client options))) ->
  tv4_validate cfg (VObj options) requestSchema = None
  /\ exists uri, request_uri cfg client options = Some uri /\ get "uri" o = VStr uri.
Proof.
  rewrite request_requests.
  destruct (outgoing cfg client options) as [o'|] eqn:Ho; [|intros []].
  intros [<-|[]]. split.
  - revert Ho. unfold outgoing, outgoing_with.
    destruct (tv4_validate cfg (VObj options) requestSchema);
      [discriminate | reflexivity].
  - destruct (outgoing_fields _ _ _ _ Ho) as (_ & _ & _ & _ & uri & Hu & Hget).
    eauto.
Qed.

Lemma only_validated_options_are_sent_witness :
  Tv4.validate (VObj read_app_options) requestSchema = None.
Proof.
  apply (only_validated_options_are_sent (reference_config (answering 200 VNull))
           (local_client (VStr "s.client")) read_app_options
           (sent_by (reference_config (answering 200 VNull))
              (local_client (VStr "s.client")) read_app_options)).
  vm_compute. left. reflexivity.
Defined.
